(** * pdf-signer: the signing helpers of [app.py] and [sign_all.py]

    A shallow embedding of the two entry points of the repository: the
    Streamlit application ([app.py]) and the batch script ([sign_all.py]).
    Both share four helpers (the PKCS#12 loader, the signature dictionary
    builder, the page-size reader and the bottom-right box calculator) and
    one signing function each.

    Python values are modelled as the code has them: numbers are either
    [int] (unbounded, [Z]) or [float] (binary64, Rocq's primitive floats),
    [bytes] are lists of bytes, [str] is a string, the dictionary handed to
    the signer is a finite map with string keys, and raising an exception
    is a value of the [result] type.  The three libraries the code calls
    ([pypdf], [cryptography]'s PKCS#12 decoder and [endesive]'s CMS signer)
    are an interface, [Libraries], and the functions that call them are
    parametric in it.  The clock that [datetime.now] reads is an explicit
    argument, [now]. *)

From Stdlib Require Import ZArith String Ascii List Lia Bool Strings.Byte.
From Stdlib Require Import Floats.PrimFloat Floats.SpecFloat Floats.FloatOps.
From stdpp Require Import base gmap strings.

Set Warnings "-inexact-float".
Local Open Scope string_scope.
Local Open Scope Z_scope.

(** ** Python runtime *)

Module Py.

(** The exceptions that can leave the functions of the two files.
    [LibraryError] stands for whatever one of the three libraries raises
    on input it rejects (a malformed PDF, a wrong passphrase, a signing
    failure). *)
Inductive exn : Type :=
| IndexError
| OverflowError
| AttributeError
| FileNotFoundError
| LibraryError (msg : string).

Inductive result (A : Type) : Type :=
| Ok (a : A)
| Raise (e : exn).
Arguments Ok {A} a.
Arguments Raise {A} e.

Definition bind {A B : Type} (c : result A) (k : A -> result B) : result B :=
  match c with
  | Ok a => k a
  | Raise e => Raise e
  end.

Definition is_ok {A : Type} (c : result A) : bool :=
  match c with Ok _ => true | Raise _ => false end.

(** *** Numbers *)

Inductive pynum : Type :=
| PyInt (z : Z)
| PyFloat (f : float).

(** [int] to [float], as the interpreter converts the [int] operand of a
    mixed operation: correctly rounded (ties to even), and
    [OverflowError] when the rounded value is not a finite double. *)
Definition float_of_int (z : Z) : result float :=
  match binary_normalize prec emax z 0 false with
  | S754_infinity _ => Raise OverflowError
  | s => Ok (SF2Prim s)
  end.

Definition arith (fz : Z -> Z -> Z) (ff : float -> float -> float)
           (a b : pynum) : result pynum :=
  match a, b with
  | PyInt x, PyInt y => Ok (PyInt (fz x y))
  | PyFloat x, PyFloat y => Ok (PyFloat (ff x y))
  | PyInt x, PyFloat y =>
      bind (float_of_int x) (fun x' => Ok (PyFloat (ff x' y)))
  | PyFloat x, PyInt y =>
      bind (float_of_int y) (fun y' => Ok (PyFloat (ff x y')))
  end.

Definition sub : pynum -> pynum -> result pynum := arith Z.sub PrimFloat.sub.
Definition add : pynum -> pynum -> result pynum := arith Z.add PrimFloat.add.

(** A float against an int: Python compares the exact values, and a NaN
    compares with nothing. *)
Definition float_cmp_int (f : float) (z : Z) : option comparison :=
  match Prim2SF f with
  | S754_zero _ => Some (0 ?= z)
  | S754_finite s m e =>
      let v := if s then Z.neg m else Z.pos m in
      Some (if 0 <=? e then v * 2 ^ e ?= z else v ?= z * 2 ^ (- e))
  | S754_infinity s => Some (if s then Lt else Gt)
  | S754_nan => None
  end.

(** Python's [==] on numbers. *)
Definition eqb (a b : pynum) : bool :=
  match a, b with
  | PyInt x, PyInt y => x =? y
  | PyFloat x, PyFloat y => PrimFloat.eqb x y
  | PyInt x, PyFloat y =>
      match float_cmp_int y x with Some Eq => true | _ => false end
  | PyFloat x, PyInt y =>
      match float_cmp_int x y with Some Eq => true | _ => false end
  end.

(** Python's [<] on numbers. *)
Definition ltb (a b : pynum) : bool :=
  match a, b with
  | PyInt x, PyInt y => x <? y
  | PyFloat x, PyFloat y => PrimFloat.ltb x y
  | PyInt x, PyFloat y =>
      match float_cmp_int y x with Some Gt => true | _ => false end
  | PyFloat x, PyInt y =>
      match float_cmp_int x y with Some Lt => true | _ => false end
  end.

(** *** Sequences *)

(** [seq[i]] of a Python sequence: a negative index counts from the end,
    and an index that is still out of range raises [IndexError].  This is
    what [reader.pages[page_index]] does in [pypdf]. *)
Definition getitem {A : Type} (l : list A) (i : Z) : result A :=
  let n := Z.of_nat (length l) in
  let j := if i <? 0 then n + i else i in
  if (j <? 0) || (n <=? j) then Raise IndexError
  else match l !! Z.to_nat j with
       | Some a => Ok a
       | None => Raise IndexError
       end.

(** *** [bytes] and [str] *)

Definition bytes : Type := list byte.

(** A [str] is held as its UTF-8 text, so [s.encode("utf-8")] lists its
    bytes. *)
Definition encode_utf8 (s : string) : bytes := list_byte_of_string s.

(** Truth value of an optional [str]: [None] and the empty string are
    false. *)
Definition truthy (s : option string) : bool :=
  match s with
  | None => false
  | Some s => negb (String.eqb s "")
  end.

(** *** [datetime] and [strftime] *)

Record datetime : Type := mk_datetime {
  year : Z; month : Z; day : Z; hour : Z; minute : Z; second : Z
}.

(** The values [datetime.now(timezone.utc)] can return. *)
Definition valid_datetime (t : datetime) : Prop :=
  1 <= year t <= 9999 /\ 1 <= month t <= 12 /\ 1 <= day t <= 31 /\
  0 <= hour t <= 23 /\ 0 <= minute t <= 59 /\ 0 <= second t <= 59.

Definition digit (d : Z) : ascii := ascii_of_nat (48 + Z.to_nat d).

(** [%m], [%d], [%H], [%M], [%S]: two digits, zero padded. *)
Definition zpad2 (n : Z) : string :=
  String (digit (n / 10)) (String (digit (n mod 10)) "").

(** [%Y]: four digits, zero padded. *)
Definition zpad4 (n : Z) : string :=
  (zpad2 (n / 100) ++ zpad2 (n mod 100))%string.

(** [t.strftime("D:%Y%m%d%H%M%S+00'00'")]. *)
Definition strftime_pdf (t : datetime) : string :=
  ("D:" ++ zpad4 (year t) ++ zpad2 (month t) ++ zpad2 (day t)
        ++ zpad2 (hour t) ++ zpad2 (minute t) ++ zpad2 (second t)
        ++ "+00'00'")%string.

End Py.

Import Py.

Declare Scope py_scope.
Notation "'let*' p ':=' c 'in' k" := (bind c (fun p => k))
  (at level 10, p pattern, c at level 100, k at level 200) : py_scope.
Local Open Scope py_scope.

(** ** Text and paths *)

Module Str.

(** [c.lower()] on one character of the ASCII range. *)
Definition lower_char (c : ascii) : ascii :=
  let n := nat_of_ascii c in
  if ((65 <=? n) && (n <=? 90))%nat then ascii_of_nat (n + 32) else c.

(** [s.lower()].  A [str] is held as its UTF-8 text; the letters outside
    ASCII are left as they are, which does not change whether the result
    ends with [".pdf"], the only use the code makes of it. *)
Fixpoint lower (s : string) : string :=
  match s with
  | EmptyString => EmptyString
  | String c s' => String (lower_char c) (lower s')
  end.

(** [s.endswith(suffix)] *)
Definition endswith (suffix s : string) : bool :=
  (String.length suffix <=? String.length s)%nat
  && String.eqb (substring (String.length s - String.length suffix)
                           (String.length suffix) s)
                suffix.

(** [s.startswith(prefix)] *)
Definition startswith (prefix s : string) : bool := String.prefix prefix s.

(** [s[:-k]] for a positive [k]: all but the last [k] characters, and the
    empty string when there are fewer. *)
Definition drop_last (k : nat) (s : string) : string :=
  substring 0 (String.length s - k) s.

End Str.

(** [os.path] on a POSIX system. *)
Module Path.

Definition is_sep (c : ascii) : bool := Ascii.eqb c "/".

(** The part of [whole] after its last separator, scanning [p]. *)
Fixpoint after_last_sep (whole p : string) : string :=
  match p with
  | EmptyString => whole
  | String c rest =>
      if is_sep c then after_last_sep rest rest else after_last_sep whole rest
  end.

(** [os.path.basename(p)]: what follows the last ["/"]. *)
Definition basename (p : string) : string := after_last_sep p p.

(** [os.path.join(a, b)] *)
Definition join (a b : string) : string :=
  if Str.startswith "/" b then b
  else if String.eqb a "" || Str.endswith "/" a then (a ++ b)%string
       else (a ++ "/" ++ b)%string.

Fixpoint has_sep (s : string) : bool :=
  match s with
  | EmptyString => false
  | String c rest => is_sep c || has_sep rest
  end.

End Path.

(** ** Values shared by the two files *)

(** A box [(x1, y1, x2, y2)] in PDF points. *)
Definition rect : Type := pynum * pynum * pynum * pynum.

(** The values stored in the dictionary handed to the signer. *)
Inductive pyval : Type :=
| VInt (z : Z)
| VStr (s : string)
| VBox (b : rect).

(** [a or []] for the list of additional certificates. *)
Definition or_empty {A : Type} (l : option (list A)) : list A :=
  match l with
  | Some (x :: l') => x :: l'
  | _ => []
  end.

(** [password.encode("utf-8")]; [None] has no such method. *)
Definition str_encode (password : option string) : result bytes :=
  match password with
  | Some s => Ok (encode_utf8 s)
  | None => Raise AttributeError
  end.

(** ** The libraries *)

(** A page as [pypdf] shows it: the width and height of its media box. *)
Record page : Type := mk_page {
  mediabox_width : float;
  mediabox_height : float
}.

Class Libraries : Type := {
  PrivateKey : Type;
  Certificate : Type;
  (** [PdfReader(stream).pages] *)
  pdf_pages : bytes -> result (list page);
  (** [pkcs12.load_key_and_certificates(data, password)] *)
  load_key_and_certificates :
    bytes -> option bytes ->
    result (PrivateKey * Certificate * option (list Certificate));
  (** [pdf.cms.sign(datau, udct, key, cert, othercerts, algomd)] *)
  cms_sign :
    bytes -> gmap string pyval -> PrivateKey -> Certificate ->
    list Certificate -> string -> result bytes
}.

(** The files the batch script reads and writes, each under the path the
    code opens it by.  Directories, links and the several spellings of one
    path are outside this model: a path is the file it names, and opening a
    file for writing succeeds. *)
Module Fs.

Definition read (fs : gmap string bytes) (path : string) : result bytes :=
  match fs !! path with
  | Some data => Ok data
  | None => Raise FileNotFoundError
  end.

(** [open(path, "wb")] creates or truncates the file. *)
Definition open_wb (fs : gmap string bytes) (path : string)
  : gmap string bytes :=
  <[path := []]> fs.

(** [fh.write(data)] appends at the end of the open file. *)
Definition write (fs : gmap string bytes) (path : string) (data : bytes)
  : gmap string bytes :=
  alter (fun old => (old ++ data)%list) path fs.

End Fs.

(** ** app.py *)

Module App.
Section App.
Context `{L : Libraries}.

Definition load_pkcs12_from_bytes (p12_bytes : bytes)
           (password : option string)
  : result (PrivateKey * Certificate * list Certificate) :=
  let* pw := (if truthy password
              then let* b := str_encode password in Ok (Some b)
              else Ok None) in
  let* (key, cert, ca_list) := load_key_and_certificates p12_bytes pw in
  Ok (key, cert, or_empty ca_list).

Definition default_box : rect := (PyInt 36, PyInt 36, PyInt 196, PyInt 120).

Definition signature_dict (visible : bool) (page_index : Z) (box : rect)
           (reason location contact : string) (now : datetime)
  : gmap string pyval :=
  let signing_date := strftime_pdf now in
  let dct : gmap string pyval :=
    list_to_map
      [ ("sigflags", VInt 3);
        ("contact", VStr contact);
        ("location", VStr location);
        ("signingdate", VStr signing_date);
        ("reason", VStr reason);
        ("signature", VStr "FIRMA DIGITAL: ENZO GAROFALO LANZUISI") ] in
  if visible
  then <["signaturebox" := VBox box]> (<["sigpage" := VInt page_index]> dct)
  else dct.

Definition get_page_size (pdf_bytes : bytes) (page_index : Z)
  : result (float * float) :=
  let* pages := pdf_pages pdf_bytes in
  let page_index :=
    if page_index <? 0 then Z.of_nat (length pages) - 1 else page_index in
  let* page := getitem pages page_index in
  let width := mediabox_width page in
  let height := mediabox_height page in
  Ok (width, height).

Definition bottom_right_box
           (width height box_w box_h margin_right margin_bottom : pynum)
  : result rect :=
  let* x2 := sub width margin_right in
  let* x1 := sub x2 box_w in
  let y1 := margin_bottom in
  let* y2 := add y1 box_h in
  Ok (x1, y1, x2, y2).

Definition sign_pdf_bytes (pdf_bytes : bytes) (key : PrivateKey)
           (cert : Certificate) (ca_list : list Certificate)
           (visible : bool) (page_index : Z) (br_box : option rect)
           (reason location contact : string) (now : datetime)
  : result bytes :=
  let* dct :=
    (if visible
     then
       let* br_box :=
         match br_box with
         | None =>
             let* (width, height) := get_page_size pdf_bytes page_index in
             bottom_right_box (PyFloat width) (PyFloat height)
                              (PyInt 160) (PyInt 84) (PyInt 24) (PyInt 24)
         | Some b => Ok b
         end in
       Ok (signature_dict true page_index br_box reason location contact now)
     else
       Ok (signature_dict false page_index default_box
                          reason location contact now)) in
  let* signed_append :=
    cms_sign pdf_bytes dct key cert ca_list "sha256" in
  Ok (pdf_bytes ++ signed_append)%list.

(** *** The [Firmar PDFs] button *)

(** A file of the uploader: its name, what [read()] returns, and the clock
    reading at the moment its signature request is built. *)
Record upload : Type := mk_upload {
  upload_name : string;
  upload_data : bytes;
  signed_at : datetime
}.

(** The name under which a signed file is offered. *)
Definition out_name (original_name : string) : string :=
  if Str.endswith ".pdf" (Str.lower original_name)
  then (Str.drop_last 4 original_name ++ "_firmado.pdf")%string
  else (original_name ++ "_firmado.pdf")%string.

(** The loop over the uploaded files.  [box_w], [box_h], [margin_right] and
    [margin_bottom] are the values of the four number inputs, which are
    [int]s. *)
Fixpoint sign_uploads (key : PrivateKey) (cert : Certificate)
         (ca_list : list Certificate) (visible : bool)
         (box_w box_h margin_right margin_bottom : Z)
         (reason location contact : string)
         (pdf_files : list upload) (signed_results : list (string * bytes))
  : result (list (string * bytes)) :=
  match pdf_files with
  | [] => Ok signed_results
  | uploaded :: rest =>
      let original_name := upload_name uploaded in
      let pdf_bytes := upload_data uploaded in
      let* br :=
        (if visible
         then
           let* (w, h) := get_page_size pdf_bytes (-1) in
           let* bw := float_of_int box_w in
           let* bh := float_of_int box_h in
           let* mr := float_of_int margin_right in
           let* mb := float_of_int margin_bottom in
           let* b := bottom_right_box (PyFloat w) (PyFloat h) (PyFloat bw)
                                      (PyFloat bh) (PyFloat mr) (PyFloat mb) in
           Ok (Some b)
         else Ok None) in
      let* signed_bytes :=
        sign_pdf_bytes pdf_bytes key cert ca_list visible (-1) br
                       reason location contact (signed_at uploaded) in
      let name := out_name original_name in
      sign_uploads key cert ca_list visible
                   box_w box_h margin_right margin_bottom
                   reason location contact rest
                   (signed_results ++ [(name, signed_bytes)])%list
  end.

(** What the page shows once the button is pressed. *)
Inductive shown : Type :=
| ErrorNoCertificate
| ErrorNoPdf
| Success (signed_results : list (string * bytes))
| ErrorSigning (e : exn).

(** The [if run:] block, up to the success message.  [p12_file] is [None]
    when no certificate was uploaded; the download buttons and the ZIP
    archive that follow the message are not part of the model. *)
Definition run (p12_file : option bytes) (p12_password : option string)
           (pdf_files : list upload) (visible : bool)
           (box_w box_h margin_right margin_bottom : Z)
           (reason location contact : string) : shown :=
  match p12_file, p12_password with
  | None, _ | _, None => ErrorNoCertificate
  | Some p12_bytes, Some _ =>
      match pdf_files with
      | [] => ErrorNoPdf
      | _ :: _ =>
          match
            (let* (key, cert, ca_list) :=
               load_pkcs12_from_bytes p12_bytes p12_password in
             sign_uploads key cert ca_list visible
                          box_w box_h margin_right margin_bottom
                          reason location contact pdf_files [])
          with
          | Ok signed_results => Success signed_results
          | Raise e => ErrorSigning e
          end
      end
  end.

End App.
End App.

(** ** sign_all.py *)

Module SignAll.
Section SignAll.
Context `{L : Libraries}.

Definition get_page_size (fs : gmap string bytes) (pdf_path : string)
           (page_index : Z)
  : result (float * float) :=
  let* data := Fs.read fs pdf_path in
  let* pages := pdf_pages data in
  let page_index :=
    if page_index <? 0 then Z.of_nat (length pages) - 1 else page_index in
  let* page := getitem pages page_index in
  let width := mediabox_width page in
  let height := mediabox_height page in
  Ok (width, height).

Definition compute_bottom_right_box
           (width height box_w box_h margin_right margin_bottom : pynum)
  : result rect :=
  let* x2 := sub width margin_right in
  let* x1 := sub x2 box_w in
  let y1 := margin_bottom in
  let* y2 := add y1 box_h in
  Ok (x1, y1, x2, y2).

Definition _load_pkcs12 (fs : gmap string bytes) (p12_path : string)
           (password : option string)
  : result (PrivateKey * Certificate * list Certificate) :=
  let* p12_data := Fs.read fs p12_path in
  let* pw := str_encode password in
  let* (key, cert, additional_certs) :=
    load_key_and_certificates p12_data (Some pw) in
  Ok (key, cert, or_empty additional_certs).

Definition default_reason : string := "Aprobación de documento".
Definition default_location : string := "Sabadell, ES".
Definition default_contact : string := "it@empresa.com".

Definition _signature_dict (visible : bool) (page_index : Z) (box : rect)
           (reason location contact : string) (now : datetime)
  : gmap string pyval :=
  let signing_date := strftime_pdf now in
  let dct : gmap string pyval :=
    list_to_map
      [ ("sigflags", VInt 3);
        ("contact", VStr contact);
        ("location", VStr location);
        ("signingdate", VStr signing_date);
        ("reason", VStr reason);
        ("signature", VStr "Firma Digital: ENZO GAROFALO LANZUISI") ] in
  if visible
  then <["signaturebox" := VBox box]> (<["sigpage" := VInt page_index]> dct)
  else dct.

(** The function returns [None]; its effect is the file it writes, so the
    model returns the file system after the call. *)
Definition sign_pdf_file (fs : gmap string bytes)
           (input_path output_path p12_path : string)
           (p12_password : option string)
           (visible : bool) (page_index : Z) (box : rect) (now : datetime)
  : result (gmap string bytes) :=
  let* pdf_bytes := Fs.read fs input_path in
  let* (key, cert, ca) := _load_pkcs12 fs p12_path p12_password in
  let* box :=
    (if visible
     then
       let* (width, height) := get_page_size fs input_path page_index in
       compute_bottom_right_box (PyFloat width) (PyFloat height)
                                (PyInt 160) (PyInt 84) (PyInt 24) (PyInt 24)
     else Ok box) in
  let dct := _signature_dict visible page_index box
                             default_reason default_location default_contact
                             now in
  let* signed_bytes := cms_sign pdf_bytes dct key cert ca "sha256" in
  let fs := Fs.open_wb fs output_path in
  let fs := Fs.write fs output_path pdf_bytes in
  let fs := Fs.write fs output_path signed_bytes in
  Ok fs.

(** *** The batch *)

(** The loop of [sign_all_pdfs] over the paths [glob] found, each with the
    clock reading at the moment its request is built.  A call of
    [sign_pdf_file] that raises has written nothing (its two writes are its
    last statements), so the files are then as the previous turn left
    them.  The result is the files, the lines printed, and how the loop
    ended. *)
Fixpoint sign_found (fs : gmap string bytes)
         (found : list (string * datetime))
         (target_dir p12_path : string) (p12_password : option string)
         (visible : bool) (printed : list string)
  : gmap string bytes * list string * result unit :=
  match found with
  | [] => (fs, printed, Ok tt)
  | (pdf_path, now) :: rest =>
      let base := Path.basename pdf_path in
      let out_path := Path.join target_dir base in
      match sign_pdf_file fs pdf_path out_path p12_path p12_password
                          visible (-1)
                          (PyInt 36, PyInt 36, PyInt 196, PyInt 120) now with
      | Ok fs' =>
          sign_found fs' rest target_dir p12_path p12_password visible
                     (printed ++ [("✔ Firmado: " ++ base)%string])%list
      | Raise e => (fs, printed, Raise e)
      end
  end.

(** [sign_all_pdfs], from its loop on: [found] is what
    [glob.glob(os.path.join(source_dir, "*.pdf"))] returned, and
    [os.makedirs(target_dir, exist_ok=True)] has succeeded. *)
Definition sign_all_pdfs (fs : gmap string bytes)
           (found : list (string * datetime))
           (target_dir p12_path : string) (p12_password : option string)
           (visible : bool)
  : gmap string bytes * list string * result unit :=
  sign_found fs found target_dir p12_path p12_password visible [].

End SignAll.
End SignAll.

(** ** Properties the specification names *)

(** A box is well formed when [x1 < x2] and [y1 < y2]. *)
Definition well_formed_box (b : rect) : bool :=
  let '(x1, y1, x2, y2) := b in
  ltb x1 x2 && ltb y1 y2.

(** [x2 - x1 == box_w] *)
Definition width_matches (b : rect) (box_w : pynum) : result bool :=
  let '(x1, y1, x2, y2) := b in
  let* d := sub x2 x1 in
  Ok (eqb d box_w).

(** [y2 - y1 == box_h] *)
Definition height_matches (b : rect) (box_h : pynum) : result bool :=
  let '(x1, y1, x2, y2) := b in
  let* d := sub y2 y1 in
  Ok (eqb d box_h).

(** The page a request names, as the code resolves it: every negative
    index is the last page. *)
Definition effective_page (page_count page_index : Z) : Z :=
  if page_index <? 0 then page_count - 1 else page_index.

(** The page a request names, counting a negative index from the end. *)
Definition page_from_end (page_count page_index : Z) : Z :=
  if page_index <? 0 then page_count - 1 + (page_index + 1) else page_index.

Definition page_size (p : page) : float * float :=
  (mediabox_width p, mediabox_height p).

(** The PDF date format [D:YYYYMMDDHHmmSS+00'00']. *)
Definition is_digit (c : ascii) : bool :=
  ((48 <=? nat_of_ascii c) && (nat_of_ascii c <=? 57))%nat.

Fixpoint all_digits (s : string) : bool :=
  match s with
  | EmptyString => true
  | String c s' => is_digit c && all_digits s'
  end.

Definition is_pdf_utc_date (s : string) : bool :=
  (String.length s =? 23)%nat
  && String.eqb (substring 0 2 s) "D:"
  && all_digits (substring 2 14 s)
  && String.eqb (substring 16 7 s) "+00'00'".

(** The number a run of decimal digits writes. *)
Fixpoint decimal_from (acc : Z) (s : string) : Z :=
  match s with
  | EmptyString => acc
  | String c s' => decimal_from (10 * acc + (Z.of_nat (nat_of_ascii c) - 48)) s'
  end.

Definition decimal (s : string) : Z := decimal_from 0 s.

(** The clock value a PDF date string writes. *)
Definition read_pdf_date (s : string) : datetime :=
  mk_datetime (decimal (substring 2 4 s)) (decimal (substring 6 2 s))
              (decimal (substring 8 2 s)) (decimal (substring 10 2 s))
              (decimal (substring 12 2 s)) (decimal (substring 14 2 s)).

(** The request the upload loop of [app.py] hands to the signer for a
    file: for a visible signature, the last page and the bottom-right box
    of that page in the sizes of the four number inputs. *)
Definition upload_request `{L : Libraries} (visible : bool)
           (box_w box_h margin_right margin_bottom : Z)
           (reason location contact : string) (u : App.upload)
  : result (gmap string pyval) :=
  if visible
  then
    let* (w, h) := App.get_page_size (App.upload_data u) (-1) in
    let* bw := float_of_int box_w in
    let* bh := float_of_int box_h in
    let* mr := float_of_int margin_right in
    let* mb := float_of_int margin_bottom in
    let* b := App.bottom_right_box (PyFloat w) (PyFloat h) (PyFloat bw)
                                   (PyFloat bh) (PyFloat mr) (PyFloat mb) in
    Ok (App.signature_dict true (-1) b reason location contact
                           (App.signed_at u))
  else
    Ok (App.signature_dict false (-1) App.default_box
                           reason location contact (App.signed_at u)).

(** What one turn of the upload loop leaves in [signed_results] for a
    file: its new name, and its bytes followed by what the signer returned
    for the request of the file. *)
Definition signed_upload `{L : Libraries} (key : PrivateKey)
           (cert : Certificate) (ca : list Certificate) (visible : bool)
           (box_w box_h margin_right margin_bottom : Z)
           (reason location contact : string)
           (u : App.upload) (r : string * bytes) : Prop :=
  fst r = App.out_name (App.upload_name u)
  /\ exists dct upd,
      upload_request visible box_w box_h margin_right margin_bottom
                     reason location contact u = Ok dct
      /\ cms_sign (App.upload_data u) dct key cert ca "sha256" = Ok upd
      /\ snd r = (App.upload_data u ++ upd)%list.

(** ** Stand-ins for the libraries, for the examples *)

Module Demo.

Definition letter : page := mk_page 612 792.

Definition three_pages : list page :=
  [mk_page 100 150; mk_page 200 250; mk_page 300 350].

(** A decoder for a container that was saved without a password: it opens
    with no password and with the empty one, and rejects every other. *)
Definition open_passwordless (data : bytes) (password : option bytes)
  : result (unit * unit * option (list unit)) :=
  match password with
  | None | Some [] => Ok (tt, tt, None)
  | Some _ => Raise (LibraryError "Invalid password or PKCS12 data")
  end.

(** A decoder that accepts whatever it is given. *)
Definition open_any (data : bytes) (password : option bytes)
  : result (unit * unit * option (list unit)) :=
  Ok (tt, tt, Some [tt]).

(** A signer whose update is the signing date of the request. *)
Definition sign_with_date (data : bytes) (dct : gmap string pyval)
           (key cert : unit) (ca : list unit) (algo : string)
  : result bytes :=
  match dct !! "signingdate" with
  | Some (VStr d) => Ok (encode_utf8 d)
  | _ => Raise (LibraryError "no signing date")
  end.

Definition libs (pages : list page)
           (decoder : bytes -> option bytes ->
                      result (unit * unit * option (list unit)))
  : Libraries :=
  {| PrivateKey := unit;
     Certificate := unit;
     pdf_pages := fun _ => Ok pages;
     load_key_and_certificates := decoder;
     cms_sign := sign_with_date |}.

(** Libraries whose decoder hands back, in place of the key, the password
    it was called with. *)
Definition recording : Libraries :=
  {| PrivateKey := option bytes;
     Certificate := unit;
     pdf_pages := fun _ => Ok [];
     load_key_and_certificates := fun _ password => Ok (password, tt, None);
     cms_sign := fun _ _ _ _ _ _ => Raise (LibraryError "no signer") |}.

Definition noon : datetime := mk_datetime 2025 3 9 12 0 7.

Definition pdf : bytes := [x25; x50; x44; x46].

Definition disk : gmap string bytes :=
  <["in.pdf" := pdf]> (<["cert.p12" := [x30]]> ∅).

End Demo.

(** Libraries whose signer accepts every request. *)
Module Accepting.

Definition sign_fixed (data : bytes) (dct : gmap string pyval)
           (key cert : unit) (ca : list unit) (algo : string)
  : result bytes :=
  Ok [x0a; x25; x25; x45; x4f; x46].

Definition libs (pages : list page) : Libraries :=
  {| PrivateKey := unit;
     Certificate := unit;
     pdf_pages := fun _ => Ok pages;
     load_key_and_certificates := Demo.open_any;
     cms_sign := sign_fixed |}.

End Accepting.

(** * Theorems *)

(** ** Numbers *)

Lemma float_of_int_24 : float_of_int 24 = Ok 24%float.
Proof. vm_compute. reflexivity. Qed.

Lemma float_of_int_160 : float_of_int 160 = Ok 160%float.
Proof. vm_compute. reflexivity. Qed.

Lemma sub_int (x y : Z) : sub (PyInt x) (PyInt y) = Ok (PyInt (x - y)).
Proof. reflexivity. Qed.

(** ** The box calculator *)

Section Box.

(** Unfolding of a successful call: each coordinate is the result of the
    operation the source writes for it. *)
Lemma bottom_right_box_inv (w h bw bh mr mb : pynum) (x1 y1 x2 y2 : pynum) :
  App.bottom_right_box w h bw bh mr mb = Ok (x1, y1, x2, y2) ->
  sub w mr = Ok x2 /\ sub x2 bw = Ok x1 /\ y1 = mb /\ add y1 bh = Ok y2.
Proof.
  unfold App.bottom_right_box.
  destruct (sub w mr) as [x2'|e] eqn:E2; simpl; [|discriminate].
  destruct (sub x2' bw) as [x1'|e] eqn:E1; simpl; [|discriminate].
  destruct (add mb bh) as [y2'|e] eqn:E3; simpl; [|discriminate].
  intros H. injection H as -> -> -> ->. auto.
Qed.

(** The page box the code computes when the caller gives none. *)
Lemma bottom_right_box_defaults (w h : float) :
  App.bottom_right_box (PyFloat w) (PyFloat h)
                       (PyInt 160) (PyInt 84) (PyInt 24) (PyInt 24)
  = Ok (PyFloat (PrimFloat.sub (PrimFloat.sub w 24) 160), PyInt 24,
        PyFloat (PrimFloat.sub w 24), PyInt 108).
Proof.
  unfold App.bottom_right_box, sub, add, arith.
  rewrite float_of_int_24. cbn [bind]. rewrite float_of_int_160. reflexivity.
Qed.

Lemma compute_bottom_right_box_defaults (w h : float) :
  SignAll.compute_bottom_right_box (PyFloat w) (PyFloat h)
                                   (PyInt 160) (PyInt 84) (PyInt 24) (PyInt 24)
  = Ok (PyFloat (PrimFloat.sub (PrimFloat.sub w 24) 160), PyInt 24,
        PyFloat (PrimFloat.sub w 24), PyInt 108).
Proof. exact (bottom_right_box_defaults w h). Qed.

End Box.

(** C10: the box calculator of [app.py] and the one of [sign_all.py] return
    the same result on every six arguments. *)
Theorem box_calculators_agree
        (width height box_w box_h margin_right margin_bottom : pynum) :
  App.bottom_right_box width height box_w box_h margin_right margin_bottom
  = SignAll.compute_bottom_right_box
      width height box_w box_h margin_right margin_bottom.
Proof. reflexivity. Qed.

(** C3, as the code has it: the calculator computes [x2 = width -
    margin_right], [x1 = x2 - box_w], [y1 = margin_bottom] and
    [y2 = y1 + box_h] in Python arithmetic and nothing else (no clamping to
    the page, whose height is not even read).  On [int] arguments the
    arithmetic is exact, so [x2 - x1 == box_w] and [y2 - y1 == box_h]; on
    [float] arguments each operation is rounded to binary64 and the four
    equations are all that holds. *)
Theorem box_calculator_equations :
  (forall w h bw bh mr mb x1 y1 x2 y2,
      App.bottom_right_box w h bw bh mr mb = Ok (x1, y1, x2, y2) ->
      sub w mr = Ok x2 /\ sub x2 bw = Ok x1 /\ y1 = mb /\ add y1 bh = Ok y2)
  /\ (forall w h bw bh mr mb : float,
         App.bottom_right_box (PyFloat w) (PyFloat h) (PyFloat bw)
                              (PyFloat bh) (PyFloat mr) (PyFloat mb)
         = Ok (PyFloat (PrimFloat.sub (PrimFloat.sub w mr) bw), PyFloat mb,
               PyFloat (PrimFloat.sub w mr), PyFloat (PrimFloat.add mb bh)))
  /\ (forall w h bw bh mr mb : Z,
         let r := (PyInt (w - mr - bw), PyInt mb,
                   PyInt (w - mr), PyInt (mb + bh)) in
         App.bottom_right_box (PyInt w) (PyInt h) (PyInt bw)
                              (PyInt bh) (PyInt mr) (PyInt mb) = Ok r
         /\ width_matches r (PyInt bw) = Ok true
         /\ height_matches r (PyInt bh) = Ok true)
  /\ (forall w h h' bw bh mr mb,
         App.bottom_right_box w h bw bh mr mb
         = App.bottom_right_box w h' bw bh mr mb)
  /\ (forall w h bw bh mr mb,
         SignAll.compute_bottom_right_box w h bw bh mr mb
         = App.bottom_right_box w h bw bh mr mb).
Proof.
  split; [|split; [|split; [|split]]].
  - intros. now apply bottom_right_box_inv with (h := h).
  - reflexivity.
  - intros w h bw bh mr mb r. subst r. split; [reflexivity|].
    unfold width_matches, height_matches. rewrite !sub_int. simpl.
    split; f_equal; apply Z.eqb_eq; lia.
  - reflexivity.
  - reflexivity.
Qed.

(** C3, as stated, fails on floats: on a 612 x 792 page with a box 160.1
    wide and 0.1 high, the code returns a box whose [x2 - x1] is not
    [== box_w] and whose [y2 - y1] is not [== box_h]. *)
Lemma box_width_not_exact_on_floats :
  exists r,
    App.bottom_right_box
      (PyFloat 612) (PyFloat 792) (PyFloat 160.1) (PyFloat 0.1)
      (PyFloat 24) (PyFloat 24) = Ok r
    /\ width_matches r (PyFloat 160.1) = Ok false
    /\ height_matches r (PyFloat 0.1) = Ok false.
Proof.
  eexists. split; [reflexivity|]. split; vm_compute; reflexivity.
Qed.

(** ** Page resolution *)

Section Pages.
Context {A : Type}.

Lemma getitem_in_range (l : list A) (i : Z) :
  0 <= i < Z.of_nat (length l) ->
  exists a, l !! Z.to_nat i = Some a /\ getitem l i = Ok a.
Proof.
  intros Hi. unfold getitem.
  destruct (i <? 0) eqn:E; [apply Z.ltb_lt in E; lia|].
  rewrite E.
  destruct (Z.of_nat (length l) <=? i) eqn:E'; [apply Z.leb_le in E'; lia|].
  simpl.
  destruct (lookup_lt_is_Some_2 l (Z.to_nat i)) as [a Ha]; [lia|].
  exists a. rewrite Ha. auto.
Qed.

(** After resolution the index is never below [-1], and [-1] only on an
    empty sequence. *)
Lemma getitem_out_of_range (l : list A) (i : Z) :
  -1 <= i -> (i = -1 -> length l = 0%nat) ->
  ~ 0 <= i < Z.of_nat (length l) ->
  getitem l i = Raise IndexError.
Proof.
  intros Hlo Hm Hout. unfold getitem.
  destruct (i <? 0) eqn:E.
  - apply Z.ltb_lt in E. assert (i = -1) as -> by lia.
    rewrite Hm by reflexivity. reflexivity.
  - rewrite E. apply Z.ltb_ge in E.
    destruct (Z.of_nat (length l) <=? i) eqn:E'; [reflexivity|].
    apply Z.leb_gt in E'. lia.
Qed.

End Pages.

Lemma effective_page_bounds (n i : Z) :
  0 <= n -> -1 <= effective_page n i /\ (effective_page n i = -1 -> n = 0).
Proof.
  unfold effective_page. intros Hn.
  destruct (i <? 0) eqn:E; [|apply Z.ltb_ge in E]; lia.
Qed.

(** C2, as the code has it: [get_page_size] of both files sends every
    negative index to the last page ([page_count - 1], so [-1] and [-2]
    name the same page), reads the page when the resolved index is in
    [[0, page_count)], and raises [IndexError] (the specification's
    [PageIndexOutOfRange]) when it is not, which covers every index on a
    document with no page. *)
Theorem page_resolution `{L : Libraries}
        (fs : gmap string bytes) (path : string) (pdf : bytes)
        (pages : list page) (i : Z) :
  pdf_pages pdf = Ok pages ->
  fs !! path = Some pdf ->
  let n := Z.of_nat (length pages) in
  let r := effective_page n i in
  (i < 0 -> r = n - 1)
  /\ (0 <= i -> r = i)
  /\ (0 <= r < n ->
      exists p, pages !! Z.to_nat r = Some p
                /\ App.get_page_size pdf i = Ok (page_size p)
                /\ SignAll.get_page_size fs path i = Ok (page_size p))
  /\ (~ 0 <= r < n ->
      App.get_page_size pdf i = Raise IndexError
      /\ SignAll.get_page_size fs path i = Raise IndexError)
  /\ (n = 0 ->
      App.get_page_size pdf i = Raise IndexError
      /\ SignAll.get_page_size fs path i = Raise IndexError).
Proof.
  intros Hpages Hfile n r.
  assert (Hget : App.get_page_size pdf i
                 = let* page := getitem pages r in Ok (page_size page)).
  { unfold App.get_page_size. rewrite Hpages. reflexivity. }
  assert (Hget' : SignAll.get_page_size fs path i
                  = let* page := getitem pages r in Ok (page_size page)).
  { unfold SignAll.get_page_size, Fs.read. rewrite Hfile. cbn [bind].
    rewrite Hpages. reflexivity. }
  assert (Hout : ~ 0 <= r < n ->
                 App.get_page_size pdf i = Raise IndexError
                 /\ SignAll.get_page_size fs path i = Raise IndexError).
  { intros Hr. rewrite Hget, Hget'.
    destruct (effective_page_bounds n i) as [Hlo Hm]; [lia|].
    rewrite getitem_out_of_range; auto.
    intros Heq. apply Hm in Heq. lia. }
  split; [|split; [|split; [|split]]].
  - intros Hi. subst r. unfold effective_page.
    destruct (i <? 0) eqn:E; [reflexivity|apply Z.ltb_ge in E; lia].
  - intros Hi. subst r. unfold effective_page.
    destruct (i <? 0) eqn:E; [apply Z.ltb_lt in E; lia|reflexivity].
  - intros Hr. destruct (getitem_in_range pages r Hr) as (p & Hp & Hg).
    exists p. rewrite Hget, Hget', Hg. auto.
  - exact Hout.
  - intros Hn. apply Hout. lia.
Qed.

(** An instance: page [-2] of a three-page document is its last page. *)
Lemma page_resolution_witness :
  exists p,
    Demo.three_pages !! 2%nat = Some p
    /\ App.get_page_size (L := Demo.libs Demo.three_pages Demo.open_any)
                         Demo.pdf (-2) = Ok (page_size p).
Proof.
  destruct (page_resolution (L := Demo.libs Demo.three_pages Demo.open_any)
              Demo.disk "in.pdf" Demo.pdf Demo.three_pages (-2)
              eq_refl eq_refl) as (_ & _ & Hin & _).
  destruct Hin as (p & Hp & Hg & _); [change (0 <= 2 < 3); lia|].
  exists p. split; [exact Hp|exact Hg].
Defined.

(** C2, as stated, fails: counting from the end, index [-2] of a
    three-page document is page 1, but the code returns the size of the
    last page, page 2. *)
Lemma negative_index_not_counted_from_end :
  page_from_end 3 (-2) = 1
  /\ Demo.three_pages !! 1%nat = Some (mk_page 200 250)
  /\ App.get_page_size (L := Demo.libs Demo.three_pages Demo.open_any)
                       Demo.pdf (-2) = Ok (300%float, 350%float)
  /\ SignAll.get_page_size (L := Demo.libs Demo.three_pages Demo.open_any)
                           Demo.disk "in.pdf" (-2)
     = Ok (300%float, 350%float)
  /\ App.get_page_size (L := Demo.libs Demo.three_pages Demo.open_any)
                       Demo.pdf (-2) <> Ok (page_size (mk_page 200 250)).
Proof.
  split; [reflexivity|]. split; [reflexivity|].
  split; [reflexivity|]. split; [reflexivity|].
  intros H.
  apply (f_equal (fun r => match r with
                           | Ok (w, _) => PrimFloat.eqb w 200
                           | Raise _ => false
                           end)) in H.
  vm_compute in H. discriminate.
Qed.

(** ** The signing date *)

Lemma is_digit_digit (d : Z) : 0 <= d <= 9 -> is_digit (digit d) = true.
Proof.
  intros Hd. unfold is_digit, digit.
  rewrite nat_ascii_embedding by lia.
  apply andb_true_intro. split; apply Nat.leb_le; lia.
Qed.

Lemma digit_value (d : Z) :
  0 <= d <= 9 -> Z.of_nat (nat_of_ascii (digit d)) - 48 = d.
Proof.
  intros Hd. unfold digit. rewrite nat_ascii_embedding by lia. lia.
Qed.

Lemma tens_digit (n : Z) : 0 <= n <= 99 -> 0 <= n / 10 <= 9.
Proof. intros Hn. Z.div_mod_to_equations. lia. Qed.

Lemma units_digit (n : Z) : 0 <= n mod 10 <= 9.
Proof. Z.div_mod_to_equations. lia. Qed.

Lemma zpad2_append (n : Z) (rest : string) :
  (zpad2 n ++ rest)%string
  = String (digit (n / 10)) (String (digit (n mod 10)) rest).
Proof. reflexivity. Qed.

Lemma all_digits_zpad2 (n : Z) (rest : string) :
  0 <= n <= 99 ->
  all_digits (zpad2 n ++ rest) = all_digits rest.
Proof.
  intros Hn. rewrite zpad2_append. cbn [all_digits].
  rewrite !is_digit_digit; auto using tens_digit, units_digit.
Qed.

Lemma decimal_from_zpad2 (acc n : Z) (rest : string) :
  0 <= n <= 99 ->
  decimal_from acc (zpad2 n ++ rest) = decimal_from (100 * acc + n) rest.
Proof.
  intros Hn. rewrite zpad2_append. cbn [decimal_from].
  rewrite !digit_value; auto using tens_digit, units_digit.
  f_equal. Z.div_mod_to_equations. lia.
Qed.

(** The fourteen digits of the date, as [strftime] lays them out. *)
Lemma strftime_pdf_layout (t : datetime) :
  strftime_pdf t
  = String "D" (String ":"
      (zpad2 (year t / 100) ++ zpad2 (year t mod 100) ++ zpad2 (month t)
       ++ zpad2 (day t) ++ zpad2 (hour t) ++ zpad2 (minute t)
       ++ zpad2 (second t) ++ "+00'00'"))%string.
Proof. reflexivity. Qed.

Lemma strftime_pdf_is_pdf_date (t : datetime) :
  valid_datetime t -> is_pdf_utc_date (strftime_pdf t) = true.
Proof.
  intros (Hy & Hmo & Hd & Hh & Hmi & Hs).
  assert (0 <= year t / 100 <= 99) by (Z.div_mod_to_equations; lia).
  assert (0 <= year t mod 100 <= 99) by (Z.div_mod_to_equations; lia).
  rewrite strftime_pdf_layout. unfold is_pdf_utc_date.
  apply andb_true_intro. split; [|reflexivity].
  apply andb_true_intro. split; [reflexivity|].
  change (all_digits
            (zpad2 (year t / 100) ++ zpad2 (year t mod 100)
             ++ zpad2 (month t) ++ zpad2 (day t) ++ zpad2 (hour t)
             ++ zpad2 (minute t) ++ zpad2 (second t) ++ "")%string = true).
  rewrite !all_digits_zpad2 by lia. reflexivity.
Qed.

Lemma read_strftime_pdf (t : datetime) :
  valid_datetime t -> read_pdf_date (strftime_pdf t) = t.
Proof.
  intros (Hy & Hmo & Hd & Hh & Hmi & Hs).
  assert (0 <= year t / 100 <= 99) by (Z.div_mod_to_equations; lia).
  assert (0 <= year t mod 100 <= 99) by (Z.div_mod_to_equations; lia).
  destruct t as [y mo d h mi s]. cbn [year month day hour minute second] in *.
  unfold read_pdf_date. f_equal.
  - change (decimal_from 0 (zpad2 (y / 100) ++ zpad2 (y mod 100) ++ "")%string
            = y).
    rewrite !decimal_from_zpad2 by lia. cbn [decimal_from].
    Z.div_mod_to_equations. lia.
  - change (decimal_from 0 (zpad2 mo ++ "")%string = mo).
    rewrite decimal_from_zpad2 by lia. cbn [decimal_from]. lia.
  - change (decimal_from 0 (zpad2 d ++ "")%string = d).
    rewrite decimal_from_zpad2 by lia. cbn [decimal_from]. lia.
  - change (decimal_from 0 (zpad2 h ++ "")%string = h).
    rewrite decimal_from_zpad2 by lia. cbn [decimal_from]. lia.
  - change (decimal_from 0 (zpad2 mi ++ "")%string = mi).
    rewrite decimal_from_zpad2 by lia. cbn [decimal_from]. lia.
  - change (decimal_from 0 (zpad2 s ++ "")%string = s).
    rewrite decimal_from_zpad2 by lia. cbn [decimal_from]. lia.
Qed.

(** ** The signature dictionary *)

(** C6: whatever the arguments, visible or not, the dictionary of either
    builder holds the flags value 3, the signing date written from the
    clock as [D:YYYYMMDDHHmmSS+00'00'] (a string of that shape which reads
    back as the clock value), and the signer's display name. *)
Theorem signature_dict_fixed_entries
        (visible : bool) (page_index : Z) (box : rect)
        (reason location contact : string) (now : datetime) :
  valid_datetime now ->
  let d := App.signature_dict visible page_index box
                              reason location contact now in
  let d' := SignAll._signature_dict visible page_index box
                                    reason location contact now in
  (d !! "sigflags" = Some (VInt 3)
   /\ d !! "signingdate" = Some (VStr (strftime_pdf now))
   /\ d !! "signature" = Some (VStr "FIRMA DIGITAL: ENZO GAROFALO LANZUISI"))
  /\ (d' !! "sigflags" = Some (VInt 3)
      /\ d' !! "signingdate" = Some (VStr (strftime_pdf now))
      /\ d' !! "signature"
         = Some (VStr "Firma Digital: ENZO GAROFALO LANZUISI"))
  /\ is_pdf_utc_date (strftime_pdf now) = true
  /\ read_pdf_date (strftime_pdf now) = now.
Proof.
  intros Hnow d d'. subst d d'.
  split; [|split; [|split]].
  - destruct visible; repeat split; reflexivity.
  - destruct visible; repeat split; reflexivity.
  - now apply strftime_pdf_is_pdf_date.
  - now apply read_strftime_pdf.
Qed.

(** An instance: an invisible request built on 9 March 2025 at 12:00:07. *)
Lemma signature_dict_fixed_entries_witness :
  App.signature_dict false (-1) App.default_box "r" "l" "c" Demo.noon
    !! "signingdate" = Some (VStr "D:20250309120007+00'00'")
  /\ is_pdf_utc_date "D:20250309120007+00'00'" = true.
Proof.
  assert (Hnow : valid_datetime Demo.noon)
    by (unfold valid_datetime; simpl; lia).
  destruct (signature_dict_fixed_entries false (-1) App.default_box
              "r" "l" "c" Demo.noon Hnow) as ((_ & Hdate & _) & _ & Hshape & _).
  split; [exact Hdate|exact Hshape].
Defined.

(** C5: a request that is not visible has neither a page entry nor a box
    entry, whatever page index and box the caller passes. *)
Theorem invisible_dict_has_no_page_or_box
        (page_index : Z) (box : rect)
        (reason location contact : string) (now : datetime) :
  let d := App.signature_dict false page_index box
                              reason location contact now in
  let d' := SignAll._signature_dict false page_index box
                                    reason location contact now in
  d !! "sigpage" = None /\ d !! "signaturebox" = None
  /\ d' !! "sigpage" = None /\ d' !! "signaturebox" = None.
Proof. repeat split; reflexivity. Qed.

(** C4, as the code has it: a visible request is built for every page
    index and every box, well formed or not; nothing is checked, and the
    dictionary carries the page index and the box the caller gave,
    unchanged. *)
Theorem visible_dict_stores_page_and_box
        (page_index : Z) (box : rect)
        (reason location contact : string) (now : datetime) :
  let d := App.signature_dict true page_index box
                              reason location contact now in
  let d' := SignAll._signature_dict true page_index box
                                    reason location contact now in
  d !! "sigpage" = Some (VInt page_index)
  /\ d !! "signaturebox" = Some (VBox box)
  /\ d' !! "sigpage" = Some (VInt page_index)
  /\ d' !! "signaturebox" = Some (VBox box).
Proof. repeat split; reflexivity. Qed.

(** C4, as stated, fails: the box [(10, 10, 5, 5)] has [x1 >= x2] and
    [y1 >= y2], and both builders return a visible request that carries
    it. *)
Lemma ill_formed_box_is_accepted :
  let box : rect := (PyInt 10, PyInt 10, PyInt 5, PyInt 5) in
  well_formed_box box = false
  /\ App.signature_dict true 0 box "r" "l" "c" Demo.noon !! "signaturebox"
     = Some (VBox box)
  /\ SignAll._signature_dict true 0 box "r" "l" "c" Demo.noon
       !! "signaturebox" = Some (VBox box).
Proof. repeat split; reflexivity. Qed.

(** ** The credential loader *)

Section Loader.
Context `{L : Libraries}.

(** [app.py]: an empty or absent passphrase reaches the decoder as
    [None]. *)
Lemma load_pkcs12_from_bytes_no_password (p12 : bytes)
      (password : option string) :
  password = None \/ password = Some "" ->
  App.load_pkcs12_from_bytes p12 password
  = let* (key, cert, ca_list) := load_key_and_certificates p12 None in
    Ok (key, cert, or_empty ca_list).
Proof. intros [-> | ->]; reflexivity. Qed.

(** [sign_all.py]: an empty passphrase reaches the decoder as the empty
    byte string, and an absent one never reaches it. *)
Lemma _load_pkcs12_empty_password (fs : gmap string bytes) (path : string)
      (data : bytes) :
  fs !! path = Some data ->
  SignAll._load_pkcs12 fs path (Some "")
  = (let* (key, cert, ca_list) := load_key_and_certificates data (Some []) in
     Ok (key, cert, or_empty ca_list))
  /\ SignAll._load_pkcs12 fs path None = Raise AttributeError.
Proof.
  intros Hfile. unfold SignAll._load_pkcs12, Fs.read. rewrite Hfile.
  split; reflexivity.
Qed.

End Loader.

(** C7, where the code departs from it: for an empty passphrase the
    loader of [sign_all.py] calls the decoder with the empty byte string,
    where the loader of [app.py] calls it with [None]; what either returns
    is what the decoder answers to that call. *)
Theorem batch_loader_passes_empty_bytes `{L : Libraries}
        (fs : gmap string bytes) (p12_path : string) (p12_data : bytes) :
  fs !! p12_path = Some p12_data ->
  SignAll._load_pkcs12 fs p12_path (Some "")
  = (let* (key, cert, additional_certs) :=
       load_key_and_certificates p12_data (Some []) in
     Ok (key, cert, or_empty additional_certs))
  /\ App.load_pkcs12_from_bytes p12_data (Some "")
     = (let* (key, cert, ca_list) :=
          load_key_and_certificates p12_data None in
        Ok (key, cert, or_empty ca_list)).
Proof.
  intros Hfile. split.
  - exact (proj1 (_load_pkcs12_empty_password fs p12_path p12_data Hfile)).
  - apply load_pkcs12_from_bytes_no_password. now right.
Qed.

(** An instance, with a decoder that hands back the password it was
    called with: the empty byte string from [sign_all.py], none from
    [app.py]. *)
Lemma batch_loader_passes_empty_bytes_witness :
  SignAll._load_pkcs12 (L := Demo.recording) Demo.disk "cert.p12" (Some "")
  = Ok (Some [], tt, [])
  /\ App.load_pkcs12_from_bytes (L := Demo.recording) [x30] (Some "")
     = Ok (None, tt, []).
Proof.
  destruct (batch_loader_passes_empty_bytes (L := Demo.recording)
              Demo.disk "cert.p12" [x30] eq_refl) as [Hbatch Happ].
  split; [rewrite Hbatch|rewrite Happ]; reflexivity.
Defined.

(** ** The signed document *)

Lemma written_file (fs : gmap string bytes) (path : string)
      (first second : bytes) :
  Fs.write (Fs.write (Fs.open_wb fs path) path first) path second
  = <[path := (first ++ second)%list]> fs.
Proof.
  unfold Fs.write, Fs.open_wb.
  rewrite !alter_insert_eq. reflexivity.
Qed.

Section Signing.
Context `{L : Libraries}.

(** The request of [sign_pdf_bytes], and what the call returns once the
    request is built. *)
Lemma sign_pdf_bytes_inv (pdf : bytes) (key : PrivateKey) (cert : Certificate)
      (ca : list Certificate) (visible : bool) (page_index : Z)
      (br_box : option rect) (reason location contact : string)
      (now : datetime) (out : bytes) :
  App.sign_pdf_bytes pdf key cert ca visible page_index br_box
                     reason location contact now = Ok out ->
  exists dct upd,
    cms_sign pdf dct key cert ca "sha256" = Ok upd
    /\ out = (pdf ++ upd)%list.
Proof.
  unfold App.sign_pdf_bytes.
  match goal with
  | |- bind ?c _ = _ -> _ => destruct c as [dct|e]; [|discriminate]
  end.
  cbn [bind].
  destruct (cms_sign pdf dct key cert ca "sha256") as [upd|e] eqn:E;
    [|discriminate].
  cbn [bind]. intros [= <-]. eauto.
Qed.

Lemma sign_pdf_file_inv (fs : gmap string bytes)
      (input_path output_path p12_path : string)
      (p12_password : option string) (visible : bool) (page_index : Z)
      (box : rect) (now : datetime) (fs' : gmap string bytes) :
  SignAll.sign_pdf_file fs input_path output_path p12_path p12_password
                        visible page_index box now = Ok fs' ->
  exists pdf key cert ca dct upd,
    fs !! input_path = Some pdf
    /\ cms_sign pdf dct key cert ca "sha256" = Ok upd
    /\ fs' = <[output_path := (pdf ++ upd)%list]> fs.
Proof.
  unfold SignAll.sign_pdf_file, Fs.read at 1.
  destruct (fs !! input_path) as [pdf|] eqn:Hin; [|discriminate].
  cbn [bind].
  destruct (SignAll._load_pkcs12 fs p12_path p12_password)
    as [[[key cert] ca]|e]; [|discriminate].
  cbn [bind].
  match goal with
  | |- bind ?c _ = _ -> _ => destruct c as [box'|e]; [|discriminate]
  end.
  cbn [bind]. cbv zeta.
  destruct (cms_sign pdf _ key cert ca "sha256") as [upd|e] eqn:E;
    [|discriminate].
  cbn [bind]. rewrite written_file. intros [= <-].
  do 6 eexists. split; [reflexivity|]. split; [exact E|reflexivity].
Qed.

(** The calls succeed when the libraries do. *)
Lemma sign_pdf_bytes_succeeds (pdf : bytes) (key : PrivateKey)
      (cert : Certificate) (ca : list Certificate) (visible : bool)
      (page_index : Z) (br_box : option rect)
      (reason location contact : string) (now : datetime) :
  (forall dct, is_ok (cms_sign pdf dct key cert ca "sha256") = true) ->
  (visible = true -> br_box = None ->
   is_ok (App.get_page_size pdf page_index) = true) ->
  is_ok (App.sign_pdf_bytes pdf key cert ca visible page_index br_box
                            reason location contact now) = true.
Proof.
  intros Hsign Hsize. unfold App.sign_pdf_bytes.
  assert (Hfin : forall dct,
             is_ok (let* signed_append :=
                      cms_sign pdf dct key cert ca "sha256" in
                    Ok (pdf ++ signed_append)%list) = true).
  { intros dct. specialize (Hsign dct).
    destruct (cms_sign pdf dct key cert ca "sha256"); [reflexivity|].
    discriminate. }
  destruct visible; [|apply Hfin].
  destruct br_box as [b|]; [apply Hfin|].
  specialize (Hsize eq_refl eq_refl).
  destruct (App.get_page_size pdf page_index) as [[w h]|e]; [|discriminate].
  cbn [bind]. rewrite bottom_right_box_defaults. apply Hfin.
Qed.

Lemma sign_pdf_file_succeeds (fs : gmap string bytes)
      (input_path output_path p12_path : string)
      (p12_password : option string) (visible : bool) (page_index : Z)
      (box : rect) (now : datetime) (pdf : bytes) :
  fs !! input_path = Some pdf ->
  is_ok (SignAll._load_pkcs12 fs p12_path p12_password) = true ->
  (forall dct key cert ca,
      is_ok (cms_sign pdf dct key cert ca "sha256") = true) ->
  (visible = true ->
   is_ok (SignAll.get_page_size fs input_path page_index) = true) ->
  is_ok (SignAll.sign_pdf_file fs input_path output_path p12_path
                               p12_password visible page_index box now)
  = true.
Proof.
  intros Hin Hload Hsign Hsize.
  unfold SignAll.sign_pdf_file, Fs.read at 1. rewrite Hin. cbn [bind].
  destruct (SignAll._load_pkcs12 fs p12_path p12_password)
    as [[[key cert] ca]|e]; [|discriminate].
  cbn [bind].
  assert (Hfin : forall dct,
             is_ok (let* signed_bytes :=
                      cms_sign pdf dct key cert ca "sha256" in
                    Ok (Fs.write
                          (Fs.write (Fs.open_wb fs output_path)
                                    output_path pdf)
                          output_path signed_bytes)) = true).
  { intros dct. specialize (Hsign dct key cert ca).
    destruct (cms_sign pdf dct key cert ca "sha256"); [reflexivity|].
    discriminate. }
  destruct visible; [|apply Hfin].
  specialize (Hsize eq_refl).
  destruct (SignAll.get_page_size fs input_path page_index) as [[w h]|e];
    [|discriminate].
  cbn [bind]. rewrite compute_bottom_right_box_defaults. apply Hfin.
Qed.

End Signing.

(** C1: whenever a signing call returns, what it returns (or writes) is the
    input PDF followed by the update the signer produced, so its first
    [len(pdf)] bytes are the input; and the call does return when the
    libraries accept their inputs. *)
Theorem signed_document_extends_original `{L : Libraries} :
  (forall pdf key cert ca visible page_index br_box reason location contact
          now out,
      App.sign_pdf_bytes pdf key cert ca visible page_index br_box
                         reason location contact now = Ok out ->
      take (length pdf) out = pdf
      /\ exists dct upd,
          cms_sign pdf dct key cert ca "sha256" = Ok upd
          /\ out = (pdf ++ upd)%list)
  /\ (forall fs input_path output_path p12_path p12_password visible
             page_index box now fs',
         SignAll.sign_pdf_file fs input_path output_path p12_path
                               p12_password visible page_index box now
         = Ok fs' ->
         exists pdf written,
           fs !! input_path = Some pdf
           /\ fs' !! output_path = Some written
           /\ take (length pdf) written = pdf
           /\ exists key cert ca dct upd,
               cms_sign pdf dct key cert ca "sha256" = Ok upd
               /\ written = (pdf ++ upd)%list)
  /\ (forall pdf key cert ca visible page_index br_box reason location
             contact now,
         (forall dct, is_ok (cms_sign pdf dct key cert ca "sha256") = true) ->
         (visible = true -> br_box = None ->
          is_ok (App.get_page_size pdf page_index) = true) ->
         is_ok (App.sign_pdf_bytes pdf key cert ca visible page_index br_box
                                   reason location contact now) = true)
  /\ (forall fs input_path output_path p12_path p12_password visible
             page_index box now pdf,
         fs !! input_path = Some pdf ->
         is_ok (SignAll._load_pkcs12 fs p12_path p12_password) = true ->
         (forall dct key cert ca,
             is_ok (cms_sign pdf dct key cert ca "sha256") = true) ->
         (visible = true ->
          is_ok (SignAll.get_page_size fs input_path page_index) = true) ->
         is_ok (SignAll.sign_pdf_file fs input_path output_path p12_path
                                      p12_password visible page_index box now)
         = true).
Proof.
  split; [|split; [|split]].
  - intros * Hout.
    destruct (sign_pdf_bytes_inv _ _ _ _ _ _ _ _ _ _ _ _ Hout)
      as (dct & upd & Hsign & ->).
    split; [apply take_app_length|eauto].
  - intros * Hfs.
    destruct (sign_pdf_file_inv _ _ _ _ _ _ _ _ _ _ Hfs)
      as (pdf & key & cert & ca & dct & upd & Hin & Hsign & ->).
    exists pdf, (pdf ++ upd)%list.
    split; [exact Hin|]. split; [apply lookup_insert_eq|].
    split; [apply take_app_length|]. eauto 10.
  - intros *. apply sign_pdf_bytes_succeeds.
  - intros *. apply sign_pdf_file_succeeds.
Qed.

(** An instance: a visible signature on the last page of a three-page
    document, through both entry points. *)
Lemma signed_document_extends_original_witness :
  let libs := Demo.libs Demo.three_pages Demo.open_any in
  let out := (Demo.pdf ++ encode_utf8 "D:20250309120007+00'00'")%list in
  App.sign_pdf_bytes (L := libs) Demo.pdf tt tt [] true (-1) None
                     "r" "l" "c" Demo.noon = Ok out
  /\ take (length Demo.pdf) out = Demo.pdf
  /\ exists pdf written,
      Demo.disk !! "in.pdf" = Some pdf
      /\ <["out.pdf" := out]> Demo.disk !! "out.pdf" = Some written
      /\ take (length pdf) written = pdf.
Proof.
  intros libs out.
  destruct (signed_document_extends_original (L := libs))
    as (Hbytes & Hfile & _).
  assert (Hcall : App.sign_pdf_bytes (L := libs) Demo.pdf tt tt [] true (-1)
                                     None "r" "l" "c" Demo.noon = Ok out)
    by (vm_compute; reflexivity).
  assert (Hrun : SignAll.sign_pdf_file (L := libs) Demo.disk "in.pdf"
                   "out.pdf" "cert.p12" (Some "pw") true (-1)
                   App.default_box Demo.noon
                 = Ok (<["out.pdf" := out]> Demo.disk))
    by (vm_compute; reflexivity).
  split; [exact Hcall|].
  split; [exact (proj1 (Hbytes _ _ _ _ _ _ _ _ _ _ _ _ Hcall))|].
  destruct (Hfile _ _ _ _ _ _ _ _ _ _ Hrun)
    as (pdf & written & Hin & Hout & Htake & _).
  exists pdf, written. auto.
Defined.

(** C8: with [visible] true, [sign_pdf_file] does the same whatever box the
    caller passes: the box is replaced by the bottom-right box of the page,
    computed with the fixed sizes 160, 84, 24 and 24, before it is used. *)
Theorem visible_file_signature_ignores_box `{L : Libraries}
        (fs : gmap string bytes) (input_path output_path p12_path : string)
        (p12_password : option string) (page_index : Z) (b1 b2 : rect)
        (now : datetime) :
  SignAll.sign_pdf_file fs input_path output_path p12_path p12_password
                        true page_index b1 now
  = SignAll.sign_pdf_file fs input_path output_path p12_path p12_password
                          true page_index b2 now
  /\ (forall pdf key cert ca w h,
         fs !! input_path = Some pdf ->
         SignAll._load_pkcs12 fs p12_path p12_password = Ok (key, cert, ca) ->
         SignAll.get_page_size fs input_path page_index = Ok (w, h) ->
         SignAll.sign_pdf_file fs input_path output_path p12_path
                               p12_password true page_index b1 now
         = let* box := SignAll.compute_bottom_right_box
                         (PyFloat w) (PyFloat h)
                         (PyInt 160) (PyInt 84) (PyInt 24) (PyInt 24) in
           let* signed_bytes :=
             cms_sign pdf
                      (SignAll._signature_dict
                         true page_index box SignAll.default_reason
                         SignAll.default_location SignAll.default_contact now)
                      key cert ca "sha256" in
           Ok (<[output_path := (pdf ++ signed_bytes)%list]> fs)).
Proof.
  split; [reflexivity|].
  intros pdf key cert ca w h Hin Hload Hsize.
  unfold SignAll.sign_pdf_file, Fs.read at 1.
  rewrite Hin, Hload, Hsize. cbn [bind].
  rewrite compute_bottom_right_box_defaults. cbn [bind]. cbv zeta.
  destruct (cms_sign pdf _ key cert ca "sha256") as [upd|e]; [|reflexivity].
  cbn [bind]. rewrite written_file. reflexivity.
Qed.

(** An instance: two different boxes, one result. *)
Lemma visible_file_signature_ignores_box_witness :
  let libs := Demo.libs Demo.three_pages Demo.open_any in
  let out := (Demo.pdf ++ encode_utf8 "D:20250309120007+00'00'")%list in
  SignAll.sign_pdf_file (L := libs) Demo.disk "in.pdf" "out.pdf" "cert.p12"
                        (Some "pw") true (-1)
                        (PyInt 0, PyInt 0, PyInt 1, PyInt 1) Demo.noon
  = Ok (<["out.pdf" := out]> Demo.disk).
Proof.
  intros libs out.
  destruct (visible_file_signature_ignores_box (L := libs)
              Demo.disk "in.pdf" "out.pdf" "cert.p12" (Some "pw") (-1)
              (PyInt 0, PyInt 0, PyInt 1, PyInt 1) App.default_box Demo.noon)
    as (_ & Hbox).
  rewrite (Hbox Demo.pdf tt tt [tt] 300%float 350%float
                eq_refl eq_refl eq_refl).
  vm_compute. reflexivity.
Defined.

(** C9: with [visible] false, [sign_pdf_bytes] does the same whatever page
    index and box the caller passes: neither enters the request. *)
Theorem invisible_bytes_signature_ignores_page_and_box `{L : Libraries}
        (pdf : bytes) (key : PrivateKey) (cert : Certificate)
        (ca_list : list Certificate) (p1 p2 : Z) (b1 b2 : option rect)
        (reason location contact : string) (now : datetime) :
  App.sign_pdf_bytes pdf key cert ca_list false p1 b1
                     reason location contact now
  = App.sign_pdf_bytes pdf key cert ca_list false p2 b2
                       reason location contact now.
Proof. reflexivity. Qed.

(** * Further properties of the code *)

(** ** Text *)

Section Text.

Lemma append_cons (c : ascii) (a b : string) :
  (String c a ++ b)%string = String c (a ++ b).
Proof. reflexivity. Qed.

Lemma append_empty (b : string) : (EmptyString ++ b)%string = b.
Proof. reflexivity. Qed.

Lemma append_assoc (a b c : string) :
  ((a ++ b) ++ c)%string = (a ++ b ++ c)%string.
Proof.
  induction a as [|x a IH]; [reflexivity|].
  rewrite !append_cons. now rewrite IH.
Qed.

Lemma length_append (a b : string) :
  String.length (a ++ b) = (String.length a + String.length b)%nat.
Proof.
  induction a as [|c a IH]; [reflexivity|].
  rewrite append_cons. cbn [String.length]. now rewrite IH.
Qed.

Lemma substring_0_append (a b : string) :
  substring 0 (String.length a) (a ++ b) = a.
Proof.
  induction a as [|c a IH]; [now destruct b|].
  rewrite append_cons. cbn [String.length substring]. now rewrite IH.
Qed.

Lemma substring_skip_append (a b : string) (n : nat) :
  substring (String.length a) n (a ++ b) = substring 0 n b.
Proof.
  induction a as [|c a IH]; [reflexivity|].
  rewrite append_cons. cbn [String.length substring]. exact IH.
Qed.

Lemma substring_0_length (s : string) :
  substring 0 (String.length s) s = s.
Proof. induction s as [|c s IH]; [reflexivity|]. cbn. now rewrite IH. Qed.

Lemma substring_split (s : string) (n : nat) :
  (n <= String.length s)%nat ->
  (substring 0 n s ++ substring n (String.length s - n) s)%string = s.
Proof.
  revert n. induction s as [|c s IH]; intros n Hn.
  - destruct n; [reflexivity|cbn in Hn; lia].
  - destruct n as [|n].
    + cbn [substring String.length Nat.sub].
      change (String c (substring 0 (String.length s) s) = String c s).
      now rewrite substring_0_length.
    + cbn in Hn. cbn [substring String.length Nat.sub].
      change (String c (substring 0 n s
                        ++ substring n (String.length s - n) s) = String c s).
      rewrite IH by lia. reflexivity.
Qed.

Lemma length_substring (s : string) (i n : nat) :
  (i + n <= String.length s)%nat -> String.length (substring i n s) = n.
Proof.
  revert i n. induction s as [|c s IH]; intros i n Hn.
  - cbn in Hn. destruct i, n; try lia; reflexivity.
  - destruct i as [|i].
    + destruct n as [|n]; [reflexivity|]. cbn in *. rewrite IH by lia.
      reflexivity.
    + cbn in *. apply IH. lia.
Qed.

Lemma length_lower (s : string) :
  String.length (Str.lower s) = String.length s.
Proof. induction s as [|c s IH]; [reflexivity|]. cbn. now rewrite IH. Qed.

Lemma lower_append (a b : string) :
  Str.lower (a ++ b) = (Str.lower a ++ Str.lower b)%string.
Proof.
  induction a as [|c a IH]; [reflexivity|].
  rewrite append_cons. cbn [Str.lower]. now rewrite append_cons, IH.
Qed.

Lemma lower_substring (s : string) (i n : nat) :
  Str.lower (substring i n s) = substring i n (Str.lower s).
Proof.
  revert i n. induction s as [|c s IH]; intros i n.
  - destruct i, n; reflexivity.
  - destruct i as [|i].
    + destruct n as [|n]; [reflexivity|]. cbn. now rewrite IH.
    + cbn. apply IH.
Qed.

Lemma endswith_append (a suffix : string) :
  Str.endswith suffix (a ++ suffix) = true.
Proof.
  unfold Str.endswith. rewrite length_append.
  apply andb_true_intro. split; [apply Nat.leb_le; lia|].
  replace (String.length a + String.length suffix - String.length suffix)%nat
    with (String.length a) by lia.
  rewrite substring_skip_append, substring_0_length. apply String.eqb_refl.
Qed.

(** A string that ends with [suffix] is what precedes it, then it. *)
Lemma endswith_split (suffix s : string) :
  Str.endswith suffix s = true ->
  s = (Str.drop_last (String.length suffix) s ++ suffix)%string.
Proof.
  unfold Str.endswith, Str.drop_last. intros H.
  apply andb_prop in H as [Hlen Heq].
  apply Nat.leb_le in Hlen. apply String.eqb_eq in Heq.
  rewrite <- (substring_split s (String.length s - String.length suffix))
    at 1 by lia.
  replace (String.length s - (String.length s - String.length suffix))%nat
    with (String.length suffix) by lia.
  now rewrite Heq.
Qed.

End Text.

(** ** The name of a signed file *)

(** X1: a name that ends with [.pdf] in any letter case keeps its stem and
    gets [_firmado.pdf] in place of the extension. *)
Theorem out_name_replaces_extension (stem ext : string) :
  String.length ext = 4%nat ->
  Str.lower ext = ".pdf" ->
  App.out_name (stem ++ ext) = (stem ++ "_firmado.pdf")%string.
Proof.
  intros Hlen Hext. unfold App.out_name.
  rewrite lower_append, Hext, endswith_append.
  unfold Str.drop_last. rewrite length_append, Hlen.
  replace (String.length stem + 4 - 4)%nat with (String.length stem) by lia.
  now rewrite substring_0_append.
Qed.

(** An instance: an upper-case extension. *)
Lemma out_name_replaces_extension_witness :
  App.out_name "Informe.PDF" = "Informe_firmado.pdf".
Proof.
  exact (out_name_replaces_extension "Informe" ".PDF" eq_refl eq_refl).
Defined.

(** X2: every name is mapped to [stem ++ "_firmado.pdf"], where the stem
    is the name itself or the name without a four-character extension that
    lowers to [.pdf]; so the result ends with [_firmado.pdf], is longer than
    the name, and is never the name. *)
Theorem out_name_is_a_new_name (original_name : string) :
  (exists stem,
      App.out_name original_name = (stem ++ "_firmado.pdf")%string
      /\ (original_name = stem
          \/ exists ext, original_name = (stem ++ ext)%string
                         /\ String.length ext = 4%nat
                         /\ Str.lower ext = ".pdf"))
  /\ Str.endswith "_firmado.pdf" (App.out_name original_name) = true
  /\ (String.length original_name
      < String.length (App.out_name original_name))%nat
  /\ App.out_name original_name <> original_name.
Proof.
  assert (Hstem : exists stem,
             App.out_name original_name = (stem ++ "_firmado.pdf")%string
             /\ (original_name = stem
                 \/ exists ext, original_name = (stem ++ ext)%string
                                /\ String.length ext = 4%nat
                                /\ Str.lower ext = ".pdf")).
  { unfold App.out_name.
    destruct (Str.endswith ".pdf" (Str.lower original_name)) eqn:E.
    - exists (Str.drop_last 4 original_name). split; [reflexivity|].
      right.
      exists (substring (String.length original_name - 4) 4 original_name).
      unfold Str.endswith in E. apply andb_prop in E as [Hlen Heq].
      apply Nat.leb_le in Hlen. apply String.eqb_eq in Heq.
      rewrite length_lower in Hlen, Heq. cbn [String.length] in Hlen, Heq.
      split; [|split].
      + unfold Str.drop_last.
        rewrite <- (substring_split original_name
                      (String.length original_name - 4)) at 1 by lia.
        do 2 f_equal. lia.
      + apply length_substring. lia.
      + rewrite lower_substring. exact Heq.
    - exists original_name. auto. }
  split; [exact Hstem|].
  destruct Hstem as (stem & Hout & Hname).
  assert (Hlen : (String.length original_name
                  < String.length (App.out_name original_name))%nat).
  { rewrite Hout, length_append. cbn [String.length].
    destruct Hname as [-> | (ext & -> & Hext & _)]; [lia|].
    rewrite length_append, Hext. lia. }
  split; [rewrite Hout; apply endswith_append|].
  split; [exact Hlen|].
  intros Heq. rewrite Heq in Hlen. lia.
Qed.

(** ** Paths *)

Lemma after_last_sep_no_sep (whole name : string) :
  Path.has_sep name = false -> Path.after_last_sep whole name = whole.
Proof.
  induction name as [|c name IH]; [reflexivity|].
  cbn [Path.has_sep Path.after_last_sep]. intros H.
  apply orb_false_elim in H as [Hc Hrest]. rewrite Hc. auto.
Qed.

Lemma after_last_sep_append (whole dir name : string) :
  Path.after_last_sep whole (dir ++ String "/" name)
  = Path.after_last_sep name name.
Proof.
  revert whole. induction dir as [|c dir IH]; intros whole.
  - reflexivity.
  - rewrite append_cons. cbn [Path.after_last_sep].
    destruct (Path.is_sep c); apply IH.
Qed.

Lemma basename_append (dir name : string) :
  Path.has_sep name = false ->
  Path.basename (dir ++ String "/" name) = name.
Proof.
  intros H. unfold Path.basename.
  rewrite after_last_sep_append. now apply after_last_sep_no_sep.
Qed.

Lemma startswith_sep (name : string) :
  Path.has_sep name = false -> Str.startswith "/" name = false.
Proof.
  destruct name as [|c name]; [reflexivity|].
  cbn [Path.has_sep]. intros H. apply orb_false_elim in H as [Hc _].
  unfold Path.is_sep in Hc. unfold Str.startswith. cbn [String.prefix].
  destruct (ascii_dec "/" c) as [<-|Hne]; [discriminate|reflexivity].
Qed.

(** X3: [basename] undoes [join]: for a file name without separator,
    [basename(join(dir, name))] is the name, so the batch writes
    [source_dir/name] to [target_dir/name]. *)
Theorem basename_of_join (source_dir target_dir name : string) :
  Path.has_sep name = false ->
  Path.basename (Path.join source_dir name) = name
  /\ Path.join target_dir (Path.basename (Path.join source_dir name))
     = Path.join target_dir name.
Proof.
  intros Hname.
  assert (Hbase : Path.basename (Path.join source_dir name) = name).
  { unfold Path.join. rewrite (startswith_sep name Hname).
    destruct (String.eqb source_dir "") eqn:Hempty.
    - apply String.eqb_eq in Hempty. subst source_dir. cbn [orb].
      rewrite append_empty. unfold Path.basename.
      now apply after_last_sep_no_sep.
    - cbn [orb]. destruct (Str.endswith "/" source_dir) eqn:Hend.
      + apply endswith_split in Hend. rewrite Hend.
        rewrite append_assoc.
        change ("/" ++ name)%string with (String "/" name).
        now apply basename_append.
      + change ("/" ++ name)%string with (String "/" name).
        now apply basename_append. }
  split; [exact Hbase|]. now rewrite Hbase.
Qed.

(** An instance: the directories of the script. *)
Lemma basename_of_join_witness :
  Path.join "signed" (Path.basename (Path.join "docs" "a.pdf"))
  = Path.join "signed" "a.pdf".
Proof. exact (proj2 (basename_of_join "docs" "signed" "a.pdf" eq_refl)). Defined.

(** ** The upload loop of [app.py] *)

Section Uploads.
Context `{L : Libraries}.
Variables (key : PrivateKey) (cert : Certificate) (ca : list Certificate).
Variables (visible : bool) (box_w box_h margin_right margin_bottom : Z).
Variables (reason location contact : string).

Local Abbreviation loop :=
  (App.sign_uploads key cert ca visible box_w box_h margin_right
                    margin_bottom reason location contact).
Local Abbreviation request :=
  (upload_request visible box_w box_h margin_right margin_bottom
                  reason location contact).
Local Abbreviation signed_entry :=
  (signed_upload key cert ca visible box_w box_h margin_right margin_bottom
                 reason location contact).

(** One turn of the loop: the request of the file is built, the signer is
    called on it, and the result is recorded. *)
Lemma sign_uploads_step (u : App.upload) (rest : list App.upload)
      (acc : list (string * bytes)) :
  loop (u :: rest) acc
  = let* dct := request u in
    let* upd := cms_sign (App.upload_data u) dct key cert ca "sha256" in
    loop rest (acc ++ [(App.out_name (App.upload_name u),
                        (App.upload_data u ++ upd)%list)])%list.
Proof.
  cbn [App.sign_uploads]. unfold upload_request. destruct visible.
  - destruct (App.get_page_size (App.upload_data u) (-1)) as [[w h]|e];
      [|reflexivity].
    cbn [bind].
    destruct (float_of_int box_w); [|reflexivity].
    destruct (float_of_int box_h); [|reflexivity].
    destruct (float_of_int margin_right); [|reflexivity].
    destruct (float_of_int margin_bottom); [|reflexivity].
    cbn [bind].
    destruct (App.bottom_right_box _ _ _ _ _ _) as [b|e]; [|reflexivity].
    cbn [bind]. unfold App.sign_pdf_bytes. cbn [bind].
    destruct (cms_sign _ _ _ _ _ _); reflexivity.
  - cbn [bind]. unfold App.sign_pdf_bytes. cbn [bind].
    destruct (cms_sign _ _ _ _ _ _); reflexivity.
Qed.

Lemma sign_uploads_inv (files : list App.upload) :
  forall acc results,
    loop files acc = Ok results ->
    exists news, results = (acc ++ news)%list /\ Forall2 signed_entry files news.
Proof.
  induction files as [|u files IH]; intros acc results.
  - cbn. intros [= <-]. exists []. split; [now rewrite app_nil_r|constructor].
  - rewrite sign_uploads_step.
    destruct (request u) as [dct|e] eqn:Hreq; [|discriminate].
    cbn [bind].
    destruct (cms_sign (App.upload_data u) dct key cert ca "sha256")
      as [upd|e] eqn:Hsign; [|discriminate].
    cbn [bind]. intros Hrest.
    destruct (IH _ _ Hrest) as (news & -> & Hnews).
    exists ((App.out_name (App.upload_name u),
             (App.upload_data u ++ upd)%list) :: news).
    split; [now rewrite <- app_assoc|].
    constructor; [|exact Hnews].
    split; [reflexivity|]. exists dct, upd. auto.
Qed.

Lemma sign_uploads_acc (files : list App.upload) :
  forall acc,
    loop files acc = let* news := loop files [] in Ok (acc ++ news)%list.
Proof.
  induction files as [|u files IH]; intros acc.
  - cbn. now rewrite app_nil_r.
  - rewrite !sign_uploads_step.
    destruct (request u) as [dct|e]; [|reflexivity]. cbn [bind].
    destruct (cms_sign _ _ _ _ _ _) as [upd|e]; [|reflexivity]. cbn [bind].
    rewrite (IH (acc ++ _)%list), (IH ([] ++ _)%list).
    destruct (loop files []) as [news|e]; [|reflexivity].
    cbn [bind]. now rewrite <- app_assoc.
Qed.

Lemma sign_uploads_app (before after : list App.upload) :
  forall acc,
    loop (before ++ after)%list acc
    = let* done := loop before acc in loop after done.
Proof.
  induction before as [|u before IH]; intros acc; [reflexivity|].
  rewrite <- app_comm_cons, !sign_uploads_step.
  destruct (request u) as [dct|e]; [|reflexivity]. cbn [bind].
  destruct (cms_sign _ _ _ _ _ _) as [upd|e]; [|reflexivity]. cbn [bind].
  apply IH.
Qed.

Lemma sign_uploads_succeeds (files : list App.upload) :
  Forall (fun u => exists dct upd,
              request u = Ok dct
              /\ cms_sign (App.upload_data u) dct key cert ca "sha256"
                 = Ok upd) files ->
  forall acc, exists results, loop files acc = Ok results.
Proof.
  induction 1 as [|u files (dct & upd & Hreq & Hsign) _ IH]; intros acc.
  - exists acc. reflexivity.
  - rewrite sign_uploads_step, Hreq. cbn [bind]. rewrite Hsign. cbn [bind].
    apply IH.
Qed.

End Uploads.

(** X4: when the page reports success, the certificate was opened and
    there is one result for each uploaded file, in the order of the upload;
    each carries the new name of its file, and the bytes of the file
    followed by what the signer returned, with the key and certificates of
    the run, for the request of that file. *)
Theorem run_success_signs_every_upload `{L : Libraries}
        (p12_file : option bytes) (p12_password : option string)
        (pdf_files : list App.upload) (visible : bool)
        (box_w box_h margin_right margin_bottom : Z)
        (reason location contact : string)
        (signed_results : list (string * bytes)) :
  App.run p12_file p12_password pdf_files visible box_w box_h margin_right
          margin_bottom reason location contact
  = App.Success signed_results ->
  exists p12_bytes key cert ca,
    p12_file = Some p12_bytes
    /\ App.load_pkcs12_from_bytes p12_bytes p12_password = Ok (key, cert, ca)
    /\ length signed_results = length pdf_files
    /\ Forall2 (fun (u : App.upload) (r : string * bytes) =>
                  fst r = App.out_name (App.upload_name u)
                  /\ take (length (App.upload_data u)) (snd r)
                     = App.upload_data u
                  /\ exists dct upd,
                      upload_request visible box_w box_h margin_right
                                     margin_bottom reason location contact u
                      = Ok dct
                      /\ cms_sign (App.upload_data u) dct key cert ca
                                  "sha256" = Ok upd
                      /\ snd r = (App.upload_data u ++ upd)%list)
               pdf_files signed_results.
Proof.
  unfold App.run. intros Hrun.
  destruct p12_file as [p12|]; [|discriminate].
  destruct p12_password as [pw|]; [|discriminate].
  destruct pdf_files as [|u files]; [discriminate|].
  destruct (App.load_pkcs12_from_bytes p12 (Some pw))
    as [[[key cert] ca]|e] eqn:Hload; [|discriminate].
  cbn [bind] in Hrun.
  destruct (App.sign_uploads _ _ _ _ _ _ _ _ _ _ _ _ _) as [results|e] eqn:Hs;
    [|discriminate].
  injection Hrun as <-.
  apply sign_uploads_inv in Hs as (news & -> & Hall). rewrite app_nil_l.
  exists p12, key, cert, ca.
  split; [reflexivity|]. split; [exact Hload|].
  split; [symmetry; eapply Forall2_length; exact Hall|].
  eapply Forall2_impl; [exact Hall|].
  intros u' r (Hname & dct & upd & Hreq & Hsign & Hbytes).
  split; [exact Hname|]. unfold bytes in *.
  split; [rewrite Hbytes; apply take_app_length|eauto].
Qed.

(** An instance: two uploads, signed visibly on their last page. *)
Lemma run_success_signs_every_upload_witness :
  exists signed_results,
    App.run (L := Demo.libs Demo.three_pages Demo.open_any)
            (Some [x30]) (Some "")
            [App.mk_upload "a.pdf" Demo.pdf Demo.noon;
             App.mk_upload "b.PDF" [] Demo.noon]
            true 160 84 24 24 "r" "l" "c"
    = App.Success signed_results
    /\ length signed_results = 2%nat.
Proof.
  eexists. split; [vm_compute; reflexivity|].
  destruct (run_success_signs_every_upload
              (L := Demo.libs Demo.three_pages Demo.open_any)
              (Some [x30]) (Some "")
              [App.mk_upload "a.pdf" Demo.pdf Demo.noon;
               App.mk_upload "b.PDF" [] Demo.noon]
              true 160 84 24 24 "r" "l" "c" _ eq_refl)
    as (_ & _ & _ & _ & _ & _ & Hlen & _).
  exact Hlen.
Defined.

(** X5: the first file whose signing raises ends the run with that
    exception: the results of the files before it are dropped and the
    files after it are not looked at. *)
Theorem run_stops_at_first_failure `{L : Libraries}
        (p12_bytes : bytes) (password : string)
        (key : PrivateKey) (cert : Certificate) (ca : list Certificate)
        (before after : list App.upload) (u : App.upload) (visible : bool)
        (box_w box_h margin_right margin_bottom : Z)
        (reason location contact : string)
        (done : list (string * bytes)) (e : exn) :
  App.load_pkcs12_from_bytes p12_bytes (Some password) = Ok (key, cert, ca) ->
  App.sign_uploads key cert ca visible box_w box_h margin_right margin_bottom
                   reason location contact before [] = Ok done ->
  App.sign_uploads key cert ca visible box_w box_h margin_right margin_bottom
                   reason location contact [u] [] = Raise e ->
  App.run (Some p12_bytes) (Some password) (before ++ u :: after)%list visible
          box_w box_h margin_right margin_bottom reason location contact
  = App.ErrorSigning e.
Proof.
  intros Hload Hbefore Hfail. unfold App.run.
  destruct (before ++ u :: after)%list as [|x xs] eqn:Hfiles;
    [now destruct before|].
  rewrite <- Hfiles, Hload. cbn [bind].
  rewrite sign_uploads_app, Hbefore. cbn [bind].
  change (u :: after) with ([u] ++ after)%list.
  rewrite sign_uploads_app, (sign_uploads_acc _ _ _ _ _ _ _ _ _ _ _ [u] done).
  now rewrite Hfail.
Qed.

(** An instance: a visible signature on a document without pages, with
    another file after it. *)
Lemma run_stops_at_first_failure_witness :
  App.run (L := Demo.libs [] Demo.open_any) (Some [x30]) (Some "pw")
          [App.mk_upload "a.pdf" Demo.pdf Demo.noon;
           App.mk_upload "b.pdf" Demo.pdf Demo.noon]
          true 160 84 24 24 "r" "l" "c"
  = App.ErrorSigning IndexError.
Proof.
  exact (run_stops_at_first_failure
           (L := Demo.libs [] Demo.open_any) [x30] "pw" tt tt [tt]
           [] [App.mk_upload "b.pdf" Demo.pdf Demo.noon]
           (App.mk_upload "a.pdf" Demo.pdf Demo.noon)
           true 160 84 24 24 "r" "l" "c" [] IndexError
           eq_refl eq_refl eq_refl).
Defined.

(** X6: with a visible signature, a run over files one of which has no
    page never reports success, wherever the file stands in the upload. *)
Theorem visible_run_fails_on_pageless_file `{L : Libraries}
        (p12_file : option bytes) (p12_password : option string)
        (pdf_files : list App.upload) (u : App.upload)
        (box_w box_h margin_right margin_bottom : Z)
        (reason location contact : string)
        (signed_results : list (string * bytes)) :
  In u pdf_files ->
  pdf_pages (App.upload_data u) = Ok [] ->
  App.run p12_file p12_password pdf_files true box_w box_h margin_right
          margin_bottom reason location contact
  <> App.Success signed_results.
Proof.
  intros Hin Hpages Hrun. unfold App.run in Hrun.
  destruct p12_file as [p12|]; [|discriminate].
  destruct p12_password as [pw|]; [|discriminate].
  destruct pdf_files as [|u0 files]; [discriminate|].
  destruct (App.load_pkcs12_from_bytes p12 (Some pw)) as [[[key cert] ca]|e];
    [|discriminate].
  cbn [bind] in Hrun.
  destruct (App.sign_uploads _ _ _ _ _ _ _ _ _ _ _ _ _) as [results|e] eqn:Hs;
    [|discriminate].
  apply sign_uploads_inv in Hs as (news & _ & Hall).
  apply list_elem_of_In, list_elem_of_lookup in Hin as [i Hi].
  destruct (Forall2_lookup_l _ _ _ _ _ Hall Hi)
    as (r & _ & _ & dct & upd & Hreq & _).
  unfold upload_request, App.get_page_size in Hreq. rewrite Hpages in Hreq.
  discriminate Hreq.
Qed.

(** An instance: the second of two files has no page. *)
Lemma visible_run_fails_on_pageless_file_witness :
  App.run (L := Demo.libs [] Demo.open_any) (Some [x30]) (Some "pw")
          [App.mk_upload "a.pdf" Demo.pdf Demo.noon;
           App.mk_upload "b.pdf" [] Demo.noon]
          true 160 84 24 24 "r" "l" "c"
  <> App.Success [].
Proof.
  apply (visible_run_fails_on_pageless_file
           (L := Demo.libs [] Demo.open_any) (Some [x30]) (Some "pw")
           [App.mk_upload "a.pdf" Demo.pdf Demo.noon;
            App.mk_upload "b.pdf" [] Demo.noon]
           (App.mk_upload "b.pdf" [] Demo.noon)).
  - right. left. reflexivity.
  - reflexivity.
Defined.

(** X7: the run reports success whenever the certificate opens, there is
    a file, and for every file the request of the file can be built (for a
    visible signature: its last page is read and the four sizes convert to
    [float]) and the signer accepts that request. *)
Theorem run_succeeds `{L : Libraries}
        (p12_bytes : bytes) (password : string)
        (key : PrivateKey) (cert : Certificate) (ca : list Certificate)
        (pdf_files : list App.upload) (visible : bool)
        (box_w box_h margin_right margin_bottom : Z)
        (reason location contact : string) :
  App.load_pkcs12_from_bytes p12_bytes (Some password) = Ok (key, cert, ca) ->
  pdf_files <> [] ->
  Forall (fun u => exists dct upd,
              upload_request visible box_w box_h margin_right margin_bottom
                             reason location contact u = Ok dct
              /\ cms_sign (App.upload_data u) dct key cert ca "sha256"
                 = Ok upd) pdf_files ->
  exists signed_results,
    App.run (Some p12_bytes) (Some password) pdf_files visible box_w box_h
            margin_right margin_bottom reason location contact
    = App.Success signed_results.
Proof.
  intros Hload Hfiles Hall. unfold App.run.
  destruct pdf_files as [|u files] eqn:E; [congruence|].
  rewrite Hload. cbn [bind].
  destruct (sign_uploads_succeeds key cert ca visible box_w box_h
              margin_right margin_bottom reason location contact
              (u :: files) Hall []) as [results Hok].
  rewrite Hok. eauto.
Qed.

(** An instance: a visible signature on the last page of a three-page
    document. *)
Lemma run_succeeds_witness :
  exists signed_results,
    App.run (L := Demo.libs Demo.three_pages Demo.open_any)
            (Some [x30]) (Some "pw")
            [App.mk_upload "a.pdf" Demo.pdf Demo.noon]
            true 160 84 24 24 "r" "l" "c"
    = App.Success signed_results.
Proof.
  apply (run_succeeds (L := Demo.libs Demo.three_pages Demo.open_any)
                      [x30] "pw" tt tt [tt]).
  - reflexivity.
  - discriminate.
  - constructor; [|constructor].
    eexists. eexists. split; vm_compute; reflexivity.
Defined.

(** ** The two loaders *)

(** X8: on a passphrase that is not empty the two loaders do the same: the
    loader of [sign_all.py], given the path of a file, returns what the
    loader of [app.py] returns on the bytes of that file. *)
Theorem loaders_agree_on_nonempty_password `{L : Libraries}
        (fs : gmap string bytes) (p12_path : string) (p12_bytes : bytes)
        (password : string) :
  fs !! p12_path = Some p12_bytes ->
  password <> "" ->
  SignAll._load_pkcs12 fs p12_path (Some password)
  = App.load_pkcs12_from_bytes p12_bytes (Some password).
Proof.
  intros Hfile Hpw.
  unfold SignAll._load_pkcs12, App.load_pkcs12_from_bytes, Fs.read, truthy.
  rewrite Hfile.
  destruct (String.eqb password "") eqn:E;
    [apply String.eqb_eq in E; contradiction|].
  reflexivity.
Qed.

(** An instance: the passphrase of the script. *)
Lemma loaders_agree_on_nonempty_password_witness :
  SignAll._load_pkcs12 (L := Demo.libs [] Demo.open_any) Demo.disk
                       "cert.p12" (Some "holacaracola")
  = App.load_pkcs12_from_bytes (L := Demo.libs [] Demo.open_any) [x30]
                               (Some "holacaracola").
Proof.
  apply (loaders_agree_on_nonempty_password
           (L := Demo.libs [] Demo.open_any) Demo.disk "cert.p12" [x30]
           "holacaracola"); [reflexivity|discriminate].
Defined.

(** ** The two dictionary builders *)

(** X9: the two builders return the same dictionary but for the display
    name, which [app.py] writes in capitals. *)
Theorem builders_differ_in_display_name
        (visible : bool) (page_index : Z) (box : rect)
        (reason location contact : string) (now : datetime) :
  App.signature_dict visible page_index box reason location contact now
  = <["signature" := VStr "FIRMA DIGITAL: ENZO GAROFALO LANZUISI"]>
      (SignAll._signature_dict visible page_index box
                               reason location contact now).
Proof. destruct visible; reflexivity. Qed.

(** X10: the dictionary has the six entries [sigflags], [contact],
    [location], [signingdate], [reason] and [signature], the two entries
    [sigpage] and [signaturebox] more when the signature is visible, and no
    other; the caller's reason, location and contact are stored as
    given. *)
Theorem signature_dict_keys
        (visible : bool) (page_index : Z) (box : rect)
        (reason location contact : string) (now : datetime) :
  let d := App.signature_dict visible page_index box
                              reason location contact now in
  let d' := SignAll._signature_dict visible page_index box
                                    reason location contact now in
  let base : gset string :=
    list_to_set ["sigflags"; "contact"; "location"; "signingdate";
                 "reason"; "signature"] in
  dom d = (if visible then {["sigpage"; "signaturebox"]} ∪ base else base)
  /\ dom d' = dom d
  /\ d !! "reason" = Some (VStr reason)
  /\ d !! "location" = Some (VStr location)
  /\ d !! "contact" = Some (VStr contact).
Proof.
  cbv zeta. split; [|split; [|repeat split; destruct visible; reflexivity]].
  - unfold App.signature_dict. destruct visible;
      rewrite ?dom_insert_L, dom_list_to_map_L; cbn [fmap list_fmap fst];
      set_solver.
  - unfold App.signature_dict, SignAll._signature_dict. destruct visible;
      rewrite ?dom_insert_L, !dom_list_to_map_L; reflexivity.
Qed.

(** ** Page sizes through the two entry points *)

(** X11: [get_page_size] of [sign_all.py] on a path is [get_page_size] of
    [app.py] on the bytes of the file; on a missing file it raises
    [FileNotFoundError] and nothing is parsed. *)
Theorem get_page_size_of_file `{L : Libraries}
        (fs : gmap string bytes) (pdf_path : string) (page_index : Z) :
  SignAll.get_page_size fs pdf_path page_index
  = match fs !! pdf_path with
    | Some pdf_bytes => App.get_page_size pdf_bytes page_index
    | None => Raise FileNotFoundError
    end.
Proof.
  unfold SignAll.get_page_size, Fs.read. destruct (fs !! pdf_path);
    reflexivity.
Qed.

(** ** One file of the batch *)

(** X13: with [visible] false, [sign_pdf_file] does the same whatever page
    index and box the caller passes. *)
Theorem invisible_file_signature_ignores_page_and_box `{L : Libraries}
        (fs : gmap string bytes) (input_path output_path p12_path : string)
        (p12_password : option string) (p1 p2 : Z) (b1 b2 : rect)
        (now : datetime) :
  SignAll.sign_pdf_file fs input_path output_path p12_path p12_password
                        false p1 b1 now
  = SignAll.sign_pdf_file fs input_path output_path p12_path p12_password
                          false p2 b2 now.
Proof. reflexivity. Qed.

(** X14: [sign_pdf_file] raises [FileNotFoundError] when the input file is
    missing, whatever the other arguments, and when the input is there but
    the certificate file is missing. *)
Theorem sign_pdf_file_missing_file `{L : Libraries}
        (fs : gmap string bytes) (input_path output_path p12_path : string)
        (p12_password : option string) (visible : bool) (page_index : Z)
        (box : rect) (now : datetime) :
  fs !! input_path = None \/ fs !! p12_path = None ->
  SignAll.sign_pdf_file fs input_path output_path p12_path p12_password
                        visible page_index box now
  = Raise FileNotFoundError.
Proof.
  intros Hmissing. unfold SignAll.sign_pdf_file, Fs.read at 1.
  destruct (fs !! input_path) as [pdf|] eqn:Hin; [|reflexivity].
  destruct Hmissing as [|Hp12]; [discriminate|].
  cbn [bind]. unfold SignAll._load_pkcs12, Fs.read. now rewrite Hp12.
Qed.

(** An instance: no certificate file. *)
Lemma sign_pdf_file_missing_file_witness :
  SignAll.sign_pdf_file (L := Accepting.libs [Demo.letter]) Demo.disk
                        "in.pdf" "out.pdf" "none.p12" (Some "pw")
                        false (-1) App.default_box Demo.noon
  = Raise FileNotFoundError.
Proof.
  apply (sign_pdf_file_missing_file (L := Accepting.libs [Demo.letter])).
  right. reflexivity.
Defined.

(** ** Signing bytes *)

Lemma get_page_size_out_of_range `{L : Libraries}
      (pdf : bytes) (pages : list page) (page_index : Z) :
  pdf_pages pdf = Ok pages ->
  ~ 0 <= effective_page (Z.of_nat (length pages)) page_index
      < Z.of_nat (length pages) ->
  App.get_page_size pdf page_index = Raise IndexError.
Proof.
  intros Hpages Hout. unfold App.get_page_size. rewrite Hpages. cbn [bind].
  change (if page_index <? 0 then Z.of_nat (length pages) - 1 else page_index)
    with (effective_page (Z.of_nat (length pages)) page_index).
  destruct (effective_page_bounds (Z.of_nat (length pages)) page_index)
    as [Hlo Hm]; [lia|].
  rewrite getitem_out_of_range; auto.
  intros Heq. apply Hm in Heq. lia.
Qed.

(** X15: a visible signature without a box asks for the page index as the
    caller gave it, not as [get_page_size] resolved it, with the
    bottom-right box of the resolved page in the sizes 160, 84, 24, 24. *)
Theorem visible_request_keeps_page_index `{L : Libraries}
        (pdf : bytes) (key : PrivateKey) (cert : Certificate)
        (ca : list Certificate) (page_index : Z)
        (reason location contact : string) (now : datetime)
        (w h : float) :
  App.get_page_size pdf page_index = Ok (w, h) ->
  let box := (PyFloat (PrimFloat.sub (PrimFloat.sub w 24) 160), PyInt 24,
              PyFloat (PrimFloat.sub w 24), PyInt 108) in
  let dct := App.signature_dict true page_index box
                                reason location contact now in
  App.sign_pdf_bytes pdf key cert ca true page_index None
                     reason location contact now
  = (let* upd := cms_sign pdf dct key cert ca "sha256" in
     Ok (pdf ++ upd)%list)
  /\ dct !! "sigpage" = Some (VInt page_index)
  /\ dct !! "signaturebox" = Some (VBox box).
Proof.
  intros Hsize box dct. split; [|split; reflexivity].
  unfold App.sign_pdf_bytes. rewrite Hsize. cbn [bind].
  rewrite bottom_right_box_defaults. reflexivity.
Qed.

(** An instance: index [-2] of a three-page document: the box is that of
    the last page, the page asked for is [-2]. *)
Lemma visible_request_keeps_page_index_witness :
  let box := (PyFloat 116, PyInt 24, PyFloat 276, PyInt 108) in
  App.signature_dict true (-2) box "r" "l" "c" Demo.noon !! "sigpage"
  = Some (VInt (-2)).
Proof.
  exact (proj1 (proj2 (visible_request_keeps_page_index
                         (L := Demo.libs Demo.three_pages Demo.open_any)
                         Demo.pdf tt tt [] (-2) "r" "l" "c" Demo.noon
                         300 350 eq_refl))).
Defined.

(** X16: a visible signature without a box is refused with [IndexError]
    when the page index is out of range or the document has no page, and
    the signer is not called; with a box, or invisibly, the page index is
    not looked at and the call returns what the signer returns. *)
Theorem page_index_checked_only_without_box `{L : Libraries}
        (pdf : bytes) (key : PrivateKey) (cert : Certificate)
        (ca : list Certificate) (pages : list page) (page_index : Z)
        (box : rect) (reason location contact : string) (now : datetime) :
  pdf_pages pdf = Ok pages ->
  ~ 0 <= effective_page (Z.of_nat (length pages)) page_index
      < Z.of_nat (length pages) ->
  App.sign_pdf_bytes pdf key cert ca true page_index None
                     reason location contact now = Raise IndexError
  /\ App.sign_pdf_bytes pdf key cert ca true page_index (Some box)
                        reason location contact now
     = (let* upd := cms_sign pdf (App.signature_dict true page_index box
                                    reason location contact now)
                             key cert ca "sha256" in
        Ok (pdf ++ upd)%list)
  /\ App.sign_pdf_bytes pdf key cert ca false page_index None
                        reason location contact now
     = (let* upd := cms_sign pdf (App.signature_dict false page_index
                                    App.default_box
                                    reason location contact now)
                             key cert ca "sha256" in
        Ok (pdf ++ upd)%list).
Proof.
  intros Hpages Hout. split; [|split; reflexivity].
  unfold App.sign_pdf_bytes.
  now rewrite (get_page_size_out_of_range pdf pages page_index Hpages Hout).
Qed.

(** An instance: page 5 of a three-page document. *)
Lemma page_index_checked_only_without_box_witness :
  App.sign_pdf_bytes (L := Accepting.libs Demo.three_pages) Demo.pdf tt tt
                     [] true 5 None "r" "l" "c" Demo.noon
  = Raise IndexError.
Proof.
  refine (proj1 (page_index_checked_only_without_box
                   (L := Accepting.libs Demo.three_pages) Demo.pdf tt tt []
                   Demo.three_pages 5 App.default_box "r" "l" "c" Demo.noon
                   eq_refl _)).
  change (~ 0 <= 5 < 3). lia.
Defined.

(** X17: signing a signed document appends a second update: the result
    starts with the first signed document, and so with the original. *)
Theorem signing_twice_keeps_both_prefixes `{L : Libraries}
        (pdf out1 out2 : bytes)
        (key key' : PrivateKey) (cert cert' : Certificate)
        (ca ca' : list Certificate) (visible visible' : bool)
        (page_index page_index' : Z) (br_box br_box' : option rect)
        (reason location contact reason' location' contact' : string)
        (now now' : datetime) :
  App.sign_pdf_bytes pdf key cert ca visible page_index br_box
                     reason location contact now = Ok out1 ->
  App.sign_pdf_bytes out1 key' cert' ca' visible' page_index' br_box'
                     reason' location' contact' now' = Ok out2 ->
  take (length out1) out2 = out1
  /\ take (length pdf) out2 = pdf
  /\ exists upd1 upd2, out2 = (pdf ++ upd1 ++ upd2)%list.
Proof.
  intros H1 H2.
  apply sign_pdf_bytes_inv in H1 as (d1 & upd1 & _ & ->).
  apply sign_pdf_bytes_inv in H2 as (d2 & upd2 & _ & ->).
  split; [apply take_app_length|].
  split; [rewrite <- app_assoc; apply take_app_length|].
  exists upd1, upd2. now rewrite app_assoc.
Qed.

(** An instance: two invisible signatures. *)
Lemma signing_twice_keeps_both_prefixes_witness :
  let upd := [x0a; x25; x25; x45; x4f; x46] in
  take (length Demo.pdf) (Demo.pdf ++ upd ++ upd)%list = Demo.pdf.
Proof.
  intros upd.
  refine (proj1 (proj2 (signing_twice_keeps_both_prefixes
                          (L := Accepting.libs [])
                          Demo.pdf (Demo.pdf ++ upd)%list
                          (Demo.pdf ++ upd ++ upd)%list
                          tt tt tt tt [] [] false false (-1) (-1) None None
                          "r" "l" "c" "r" "l" "c" Demo.noon Demo.noon
                          eq_refl _))).
  vm_compute. reflexivity.
Defined.

(** ** The box on [int] arguments *)

(** X18: on [int] arguments the calculator returns a well-formed box
    exactly when the box width and height are positive, wherever the
    margins put it. *)
Theorem int_box_well_formed_iff_positive_size (w h bw bh mr mb : Z) :
  exists r,
    App.bottom_right_box (PyInt w) (PyInt h) (PyInt bw) (PyInt bh)
                         (PyInt mr) (PyInt mb) = Ok r
    /\ SignAll.compute_bottom_right_box (PyInt w) (PyInt h) (PyInt bw)
                                        (PyInt bh) (PyInt mr) (PyInt mb)
       = Ok r
    /\ well_formed_box r = (0 <? bw) && (0 <? bh).
Proof.
  eexists. split; [reflexivity|]. split; [reflexivity|].
  cbn [well_formed_box ltb]. f_equal.
  - destruct (0 <? bw) eqn:E; [apply Z.ltb_lt in E; apply Z.ltb_lt; lia|].
    apply Z.ltb_ge in E. apply Z.ltb_ge. lia.
  - destruct (0 <? bh) eqn:E; [apply Z.ltb_lt in E; apply Z.ltb_lt; lia|].
    apply Z.ltb_ge in E. apply Z.ltb_ge. lia.
Qed.

(** ** The batch of [sign_all.py] *)

Section Batch.
Context `{L : Libraries}.
Variables (target_dir p12_path : string) (p12_password : option string).
Variable visible : bool.

Local Abbreviation out_path :=
  (fun j : string * datetime => Path.join target_dir (Path.basename (fst j))).
Local Abbreviation line :=
  (fun j : string * datetime =>
     ("✔ Firmado: " ++ Path.basename (fst j))%string).
Local Abbreviation loop :=
  (fun fs found printed =>
     SignAll.sign_found fs found target_dir p12_path p12_password visible
                        printed).

Lemma sign_found_frame (found : list (string * datetime)) :
  forall fs printed path,
    (forall j, In j found -> path <> out_path j) ->
    (loop fs found printed).1.1 !! path = fs !! path.
Proof.
  induction found as [|[p now] found IH]; intros fs printed path Hpath;
    [reflexivity|].
  cbn [SignAll.sign_found].
  destruct (SignAll.sign_pdf_file _ _ _ _ _ _ _ _ _) as [fs1|e] eqn:Hs;
    [|reflexivity].
  rewrite IH by (intros j Hj; apply Hpath; now right).
  destruct (sign_pdf_file_inv _ _ _ _ _ _ _ _ _ _ Hs)
    as (pdf & key & cert & ca & dct & upd & _ & _ & ->).
  apply lookup_insert_ne. intros Heq. apply (Hpath (p, now)); [now left|].
  now rewrite <- Heq.
Qed.

Lemma sign_found_app (before after : list (string * datetime)) :
  forall fs printed,
    loop fs (before ++ after)%list printed
    = match loop fs before printed with
      | (fs1, printed1, Ok _) => loop fs1 after printed1
      | stopped => stopped
      end.
Proof.
  induction before as [|[p now] before IH]; intros fs printed.
  - cbn. now destruct (loop fs after printed) as [[? ?] [[]|?]].
  - rewrite <- app_comm_cons. cbn [SignAll.sign_found].
    destruct (SignAll.sign_pdf_file _ _ _ _ _ _ _ _ _) as [fs1|e];
      [apply IH|reflexivity].
Qed.

Lemma sign_found_ok (found : list (string * datetime)) :
  forall fs printed fs' printed',
    loop fs found printed = (fs', printed', Ok tt) ->
    (forall j j', In j found -> In j' found -> out_path j <> fst j') ->
    NoDup (map out_path found) ->
    printed' = (printed ++ map line found)%list
    /\ forall j, In j found ->
                 exists pdf upd,
                   fs !! fst j = Some pdf
                   /\ fs' !! out_path j = Some (pdf ++ upd)%list.
Proof.
  induction found as [|[p now] found IH];
    intros fs printed fs' printed' Hrun Hio Hout.
  - cbn in Hrun. injection Hrun as <- <-.
    split; [now rewrite app_nil_r|]. intros j [].
  - cbn [SignAll.sign_found] in Hrun.
    destruct (SignAll.sign_pdf_file _ _ _ _ _ _ _ _ _) as [fs1|e] eqn:Hs;
      [|discriminate].
    destruct (sign_pdf_file_inv _ _ _ _ _ _ _ _ _ _ Hs)
      as (pdf & key & cert & ca & dct & upd & Hin & _ & Hfs1).
    cbn [map] in Hout. apply NoDup_cons in Hout as [Hfresh Hout].
    destruct (IH _ _ _ _ Hrun) as [Hprinted Hrest];
      [intros j j' Hj Hj'; apply Hio; now right|exact Hout|].
    split; [rewrite Hprinted, <- app_assoc; reflexivity|].
    intros j [<- | Hj].
    + exists pdf, upd. split; [exact Hin|].
      assert (Hframe := sign_found_frame found fs1
                          (printed ++ [line (p, now)])%list
                          (out_path (p, now))).
      cbv beta in Hframe. cbn [fst] in Hframe, Hrun |- *.
      rewrite Hrun in Hframe. cbn [fst] in Hframe.
      etrans; [apply Hframe|rewrite Hfs1; apply lookup_insert_eq].
      intros j Hj Heq. apply Hfresh. apply list_elem_of_In.
      apply in_map_iff. exists j. split; [symmetry; exact Heq|exact Hj].
    + destruct (Hrest j Hj) as (pdf' & upd' & Hin' & Hout').
      exists pdf', upd'. split; [|exact Hout'].
      rewrite Hfs1 in Hin'. rewrite lookup_insert_ne in Hin'; [exact Hin'|].
      apply (Hio (p, now) j); [now left|now right].
Qed.

End Batch.

(** X20: when the batch ends well, and no output path is the path of an
    input or of another output, every file it was given has its signed
    copy under [target_dir], under its own name, holding the bytes of the
    file followed by an update; and one line was printed for each file, in
    order. *)
Theorem sign_all_pdfs_signs_every_file `{L : Libraries}
        (fs fs' : gmap string bytes) (found : list (string * datetime))
        (target_dir p12_path : string) (p12_password : option string)
        (visible : bool) (printed : list string) :
  SignAll.sign_all_pdfs fs found target_dir p12_path p12_password visible
  = (fs', printed, Ok tt) ->
  (forall j j', In j found -> In j' found ->
                Path.join target_dir (Path.basename (fst j)) <> fst j') ->
  NoDup (map (fun j : string * datetime =>
                Path.join target_dir (Path.basename (fst j))) found) ->
  printed = map (fun j : string * datetime =>
                   ("✔ Firmado: " ++ Path.basename (fst j))%string) found
  /\ forall j, In j found ->
               exists pdf upd,
                 fs !! fst j = Some pdf
                 /\ fs' !! Path.join target_dir (Path.basename (fst j))
                    = Some (pdf ++ upd)%list.
Proof.
  intros Hrun Hio Hout.
  destruct (sign_found_ok _ _ _ _ _ _ _ _ _ Hrun Hio Hout) as [Hp Hall].
  split; [exact Hp|exact Hall].
Qed.

(** An instance: one file, from [docs] to [signed]. *)
Lemma sign_all_pdfs_signs_every_file_witness :
  let disk : gmap string bytes :=
    <["docs/a.pdf" := Demo.pdf]> (<["cert.p12" := [x30]]> ∅) in
  exists fs' pdf upd,
    SignAll.sign_all_pdfs (L := Accepting.libs [Demo.letter]) disk
                          [("docs/a.pdf", Demo.noon)] "signed" "cert.p12"
                          (Some "pw") true
    = (fs', ["✔ Firmado: a.pdf"], Ok tt)
    /\ disk !! "docs/a.pdf" = Some pdf
    /\ fs' !! "signed/a.pdf" = Some (pdf ++ upd)%list.
Proof.
  intros disk. eexists.
  assert (Hrun : SignAll.sign_all_pdfs (L := Accepting.libs [Demo.letter])
                   disk [("docs/a.pdf", Demo.noon)] "signed" "cert.p12"
                   (Some "pw") true
                 = (<["signed/a.pdf" :=
                        (Demo.pdf ++ [x0a; x25; x25; x45; x4f; x46])%list]>
                      disk,
                    ["✔ Firmado: a.pdf"], Ok tt))
    by (vm_compute; reflexivity).
  destruct (sign_all_pdfs_signs_every_file
              (L := Accepting.libs [Demo.letter]) _ _ _ _ _ _ _ _ Hrun)
    as [_ Hall].
  - intros j j' [<- | []] [<- | []]. vm_compute. discriminate.
  - apply NoDup_singleton.
  - destruct (Hall ("docs/a.pdf", Demo.noon)) as (pdf & upd & Hin & Hout);
      [now left|].
    exists pdf, upd. split; [exact Hrun|]. split; [exact Hin|exact Hout].
Defined.

(** X21: the batch stops at the first file whose signing raises: the
    files before it stay signed, their lines stay printed, and the files
    after it are not touched. *)
Theorem sign_all_pdfs_stops_at_first_failure `{L : Libraries}
        (fs fs1 : gmap string bytes)
        (before after : list (string * datetime))
        (pdf_path : string) (now : datetime)
        (target_dir p12_path : string) (p12_password : option string)
        (visible : bool) (printed : list string) (e : exn) :
  SignAll.sign_all_pdfs fs before target_dir p12_path p12_password visible
  = (fs1, printed, Ok tt) ->
  SignAll.sign_pdf_file fs1 pdf_path
                        (Path.join target_dir (Path.basename pdf_path))
                        p12_path p12_password visible (-1)
                        (PyInt 36, PyInt 36, PyInt 196, PyInt 120) now
  = Raise e ->
  SignAll.sign_all_pdfs fs (before ++ (pdf_path, now) :: after)%list
                        target_dir p12_path p12_password visible
  = (fs1, printed, Raise e).
Proof.
  unfold SignAll.sign_all_pdfs. intros Hbefore Hfail.
  rewrite sign_found_app, Hbefore. cbn [SignAll.sign_found].
  now rewrite Hfail.
Qed.

(** An instance: the second of three files is missing. *)
Lemma sign_all_pdfs_stops_at_first_failure_witness :
  exists fs1,
    SignAll.sign_all_pdfs (L := Accepting.libs [Demo.letter]) Demo.disk
                          [("in.pdf", Demo.noon); ("gone.pdf", Demo.noon);
                           ("in.pdf", Demo.noon)]
                          "signed" "cert.p12" (Some "pw") false
    = (fs1, ["✔ Firmado: in.pdf"], Raise FileNotFoundError)
    /\ fs1 !! "signed/in.pdf"
       = Some (Demo.pdf ++ [x0a; x25; x25; x45; x4f; x46])%list.
Proof.
  eexists. split.
  - apply (sign_all_pdfs_stops_at_first_failure
             (L := Accepting.libs [Demo.letter]) Demo.disk _
             [("in.pdf", Demo.noon)] [("in.pdf", Demo.noon)]
             "gone.pdf" Demo.noon "signed" "cert.p12" (Some "pw") false
             ["✔ Firmado: in.pdf"] FileNotFoundError).
    + vm_compute. reflexivity.
    + vm_compute. reflexivity.
  - vm_compute. reflexivity.
Defined.

(** ** The password field *)

(** X22: a run with the password field left empty is not refused: the
    certificate is opened with no password, and the files are signed with
    what the decoder returns; a decoder that refuses ends the run with its
    exception. *)
Theorem run_with_empty_password `{L : Libraries}
        (p12_bytes : bytes) (pdf_files : list App.upload) (visible : bool)
        (box_w box_h margin_right margin_bottom : Z)
        (reason location contact : string) :
  pdf_files <> [] ->
  App.run (Some p12_bytes) (Some "") pdf_files visible box_w box_h
          margin_right margin_bottom reason location contact
  = match load_key_and_certificates p12_bytes None with
    | Ok (key, cert, ca_list) =>
        match App.sign_uploads key cert (or_empty ca_list) visible
                               box_w box_h margin_right margin_bottom
                               reason location contact pdf_files [] with
        | Ok signed_results => App.Success signed_results
        | Raise e => App.ErrorSigning e
        end
    | Raise e => App.ErrorSigning e
    end.
Proof.
  intros Hfiles. unfold App.run.
  destruct pdf_files as [|u files]; [congruence|].
  rewrite load_pkcs12_from_bytes_no_password by (now right).
  destruct (load_key_and_certificates p12_bytes None) as [[[key cert] ca]|e];
    reflexivity.
Qed.

(** An instance: a container saved without a password. *)
Lemma run_with_empty_password_witness :
  exists signed_results,
    App.run (L := Demo.libs [] Demo.open_passwordless) (Some [x30]) (Some "")
            [App.mk_upload "a.pdf" Demo.pdf Demo.noon]
            false 160 84 24 24 "r" "l" "c"
    = App.Success signed_results.
Proof.
  eexists.
  rewrite (run_with_empty_password (L := Demo.libs [] Demo.open_passwordless))
    by discriminate.
  vm_compute. reflexivity.
Defined.
